(** * The PQTest result view: panel singleton, value broker, message protocol

    A shallow embedding of [src/panels/PqTestResultViewPanel.ts]:
    the static class [SimplePqTestResultViewBroker], the class
    [PqTestResultViewPanel] and the closures they register.  The program is
    single threaded and event driven; every operation is a state transformer
    over one [World] that holds the static fields of both classes, the
    allocated panel instances and the log of the calls made to the host. *)

From Stdlib Require Import ZArith String.
From stdpp Require Import base list strings.

(** ** JavaScript values *)

(** Messages and slot values are typed [any] in the source.  Numbers are
    only compared for identity here, an integer stands for them. *)
#[warnings="-register-all"]
Inductive JValue : Type :=
| JUndefined
| JNull
| JBool (b : bool)
| JNumber (n : Z)
| JString (s : string)
| JObject (fields : list (string * JValue)).

Inductive Exception : Type :=
| TypeError (what : string)
| Raised (payload : JValue).

(** Reading an own property: the first binding of [key], [undefined] when
    there is none. *)
Fixpoint own (fields : list (string * JValue)) (key : string) : JValue :=
  match fields with
  | [] => JUndefined
  | (k, v) :: rest => if String.eqb k key then v else own rest key
  end.

(** [o.key] for an [o] of type [any]: a TypeError on [undefined] and [null],
    [undefined] on the other primitives (none of them has the properties
    read in this program), the own property on an object. *)
Definition getProperty (o : JValue) (key : string) : Exception + JValue :=
  match o with
  | JUndefined => inl (TypeError "Cannot read properties of undefined")
  | JNull => inl (TypeError "Cannot read properties of null")
  | JObject fields => inr (own fields key)
  | JBool _ | JNumber _ | JString _ => inr JUndefined
  end.

(** [a === s] for a string literal [s]. *)
Definition strictEqualsString (a : JValue) (s : string) : bool :=
  match a with
  | JString t => String.eqb t s
  | _ => false
  end.

(** ** Host objects *)

(** [vscode.Uri], as the path segments joined so far. *)
Definition Uri : Type := list string.

Definition joinPath (base : Uri) (segments : list string) : Uri := base ++ segments.

Record WebviewOptions : Type := {
  enableScripts : bool;
  localResourceRoots : list Uri
}.

Inductive ViewColumn : Type := Active | Beside.

(** The three events of a surface the panel listens to. *)
Inductive Listener : Type :=
| OnDidDispose
| OnDidChangeViewState
| OnDidReceiveMessage.

(** [IDisposable]: what a listener registration hands back.  The interface
    promises nothing about [dispose()]; [disposeThrows] is what the call
    raises, if anything. *)
Record IDisposable : Type := {
  registeredOn : nat;
  registeredFor : Listener;
  disposeThrows : option Exception
}.

(** [vscode.WebviewPanel]: a handle and, for each event, the disposable the
    host returns (pushes on the array passed as third argument) when a
    listener is registered. *)
Record WebviewPanel : Type := {
  handle : nat;
  registration : Listener -> IDisposable
}.

(** A surface whose registrations are released without fault; what
    [createWebviewPanel] returns. *)
Definition hostPanel (h : nat) : WebviewPanel :=
  {| handle := h;
     registration := fun l =>
       {| registeredOn := h; registeredFor := l; disposeThrows := None |} |}.

(** ** Objects of the program *)

(** References to [PqTestResultViewPanel] instances: positions in the heap. *)
Definition Ref : Type := nat.

(** An instance of [PqTestResultViewPanel]: its three fields. *)
Record PanelInstance : Type := {
  _panel : WebviewPanel;
  _extensionUri : Uri;
  _disposables : list IDisposable
}.

(** Subscribers of a value slot.  [Relay p] is the arrow function
    [activate] registers, closed over [oneProperty = p]; [Consumer c] is any
    other subscriber, observed through the arguments it is called with. *)
Inductive Callback : Type :=
| Relay (oneProperty : string)
| Consumer (c : nat).

(** Modelled from the spec: the class [ValueEventEmitter] of
    [common/ValueEventEmitter], absent from the sources at hand.  A slot
    holds a current value and an ordered sequence of subscribers. *)
Record ValueEventEmitter : Type := {
  currentValue : JValue;
  subscribers : list Callback
}.

(** Calls that leave the program, in the order they are made. *)
Inductive Effect : Type :=
| ExecuteCommand (command : string)
| CreateWebviewPanel (viewType title : string) (column : ViewColumn)
    (options : WebviewOptions) (created : nat)
| Reveal (surface : nat)
| SetTitle (surface : nat) (title : string)
| SetHtml (surface : nat) (scriptResource : Uri)
| Listen (surface : nat) (event : Listener)
| DisposeSurface (surface : nat)
| Release (d : IDisposable)
| PostMessage (surface : nat) (message : JValue)
| Invoked (c : nat) (argument : JValue)
| RegisterCommand (command : string)
| RegisterWebviewPanelSerializer (viewType : string)
| SetOptions (surface : nat) (options : WebviewOptions).

(** A logged call, with the value [PqTestResultViewPanel.currentPanel] had
    when the call was made (what the callee would observe). *)
Record Logged : Type := {
  effect : Effect;
  singleton : option Ref
}.

Record World : Type := {
  values : list (string * ValueEventEmitter);
  currentPanel : option Ref;
  heap : list PanelInstance;
  nextHandle : nat;
  trace : list Logged
}.

Definition setValues (vs : list (string * ValueEventEmitter)) (w : World) : World :=
  {| values := vs; currentPanel := currentPanel w; heap := heap w;
     nextHandle := nextHandle w; trace := trace w |}.

Definition setCurrentPanel (p : option Ref) (w : World) : World :=
  {| values := values w; currentPanel := p; heap := heap w;
     nextHandle := nextHandle w; trace := trace w |}.

Definition setHeap (h : list PanelInstance) (w : World) : World :=
  {| values := values w; currentPanel := currentPanel w; heap := h;
     nextHandle := nextHandle w; trace := trace w |}.

Definition setNextHandle (n : nat) (w : World) : World :=
  {| values := values w; currentPanel := currentPanel w; heap := heap w;
     nextHandle := n; trace := trace w |}.

Definition setTrace (t : list Logged) (w : World) : World :=
  {| values := values w; currentPanel := currentPanel w; heap := heap w;
     nextHandle := nextHandle w; trace := t |}.

(** ** Computations *)

Inductive Completion (A : Type) : Type :=
| Normal (a : A)
| Throw (e : Exception).
Arguments Normal {A} a.
Arguments Throw {A} e.

(** A statement: runs on a world, completes normally or abruptly, and
    leaves the world as mutated up to that point. *)
Definition Js (A : Type) : Type := World -> Completion A * World.

#[export] Instance Js_ret : MRet Js := fun A (a : A) w => (Normal a, w).

#[export] Instance Js_bind : MBind Js := fun A B (k : A -> Js B) (m : Js A) w =>
  match m w with
  | (Normal a, w') => k a w'
  | (Throw e, w') => (Throw e, w')
  end.

Definition throw {A : Type} (e : Exception) : Js A := fun w => (Throw e, w).

Definition get : Js World := fun w => (Normal w, w).

Definition modify (f : World -> World) : Js unit := fun w => (Normal tt, f w).

Definition log (e : Effect) : Js unit :=
  modify (fun w => setTrace (trace w ++ [{| effect := e; singleton := currentPanel w |}]) w).

Definition liftSum {A : Type} (r : Exception + A) : Js A :=
  match r with
  | inl e => throw e
  | inr a => mret a
  end.

(** Sequencing a statement over the elements of an array, in order. *)
Fixpoint forEach {A : Type} (body : A -> Js unit) (l : list A) : Js unit :=
  match l with
  | [] => mret tt
  | x :: rest => body x;; forEach body rest
  end.

(** [this.<field>] on a panel reference.  References are only made by the
    constructor, a dangling one does not occur in the program. *)
Definition deref (this : Ref) : Js PanelInstance := fun w =>
  match heap w !! this with
  | Some o => (Normal o, w)
  | None => (Throw (TypeError "no such instance"), w)
  end.

(** ** [PqTestResultViewPanel.postOneMessage]

    Declared ahead of the rest of its class: the relay closure of the broker
    calls it.  The promise returned by [postMessage] gets two empty
    continuations, nothing follows from its outcome. *)
Definition postOneMessage (this : Ref) (type : string) (payload : JValue) : Js unit :=
  o ← deref this;
  log (PostMessage (handle (_panel o))
         (JObject [("type", JString type); ("payload", payload)])).

(** Applying a subscriber to the value it is notified of.  The relay is
    [PqTestResultViewPanel.currentPanel?.postOneMessage("OnOneValueUpdated",
    { property: oneProperty, value: nextValue })]. *)
Definition invoke (cb : Callback) (nextValue : JValue) : Js unit :=
  match cb with
  | Relay oneProperty =>
      w ← get;
      match currentPanel w with
      | None => mret tt
      | Some cur =>
          postOneMessage cur "OnOneValueUpdated"
            (JObject [("property", JString oneProperty); ("value", nextValue)])
      end
  | Consumer c => log (Invoked c nextValue)
  end.

(** ** The slots of the broker *)

(** [values[key]]: the emitter bound to [key], if any. *)
Fixpoint lookupSlot (key : string) (vs : list (string * ValueEventEmitter))
  : option ValueEventEmitter :=
  match vs with
  | [] => None
  | (k, e) :: rest => if String.eqb k key then Some e else lookupSlot key rest
  end.

(** Mutation of the emitter object bound to [key]. *)
Fixpoint alterSlot (f : ValueEventEmitter -> ValueEventEmitter) (key : string)
    (vs : list (string * ValueEventEmitter)) : list (string * ValueEventEmitter) :=
  match vs with
  | [] => []
  | (k, e) :: rest =>
      if String.eqb k key then (k, f e) :: rest else (k, e) :: alterSlot f key rest
  end.

(** The keys a [for ... in] loop over the record enumerates. *)
Definition keys (vs : list (string * ValueEventEmitter)) : list string := vs.*1.

(** [this.values[oneProperty]], about to be called a method on: a TypeError
    when the key is unknown. *)
Definition slot (key : string) : Js ValueEventEmitter := fun w =>
  match lookupSlot key (values w) with
  | Some e => (Normal e, w)
  | None => (Throw (TypeError "Cannot read properties of undefined"), w)
  end.

Module ValueEventEmitter.

(** Modelled from the spec: the constructor of [ValueEventEmitter], a slot
    with the given initial value and no subscriber. *)
Definition new (initial : JValue) : ValueEventEmitter :=
  {| currentValue := initial; subscribers := [] |}.

Definition store (v : JValue) (e : ValueEventEmitter) : ValueEventEmitter :=
  {| currentValue := v; subscribers := subscribers e |}.

Definition append (cb : Callback) (e : ValueEventEmitter) : ValueEventEmitter :=
  {| currentValue := currentValue e; subscribers := subscribers e ++ [cb] |}.

Definition clear (e : ValueEventEmitter) : ValueEventEmitter :=
  {| currentValue := currentValue e; subscribers := [] |}.

(** Modelled from the spec: [subscribe] of [ValueEventEmitter] appends the
    callback to the slot's subscriber list; several subscriptions of one
    slot are permitted.  (The handle it returns is not used by the
    program.) *)
Definition subscribe (key : string) (cb : Callback) : Js unit :=
  _ ← slot key;
  modify (fun w => setValues (alterSlot (append cb) key (values w)) w).

(** Modelled from the spec: [emit] of [ValueEventEmitter].  With a value,
    it stores the new value, then invokes in subscription order every
    currently registered subscriber with it; without one ([None], the call
    [emit()] of [emitAll]) it invokes them with the current value. *)
Definition emit (key : string) (next : option JValue) : Js unit :=
  e ← slot key;
  let v := default (currentValue e) next in
  modify (fun w => setValues (alterSlot (store v) key (values w)) w);;
  forEach (fun cb => invoke cb v) (subscribers e).

(** Modelled from the spec: [dispose] of [ValueEventEmitter] clears the
    slot's subscriber list and keeps the slot and its value. *)
Definition dispose (key : string) : Js unit :=
  _ ← slot key;
  modify (fun w => setValues (alterSlot clear key (values w)) w).

End ValueEventEmitter.

Module SimplePqTestResultViewBroker.

(** The frozen record [values]: one slot, initially [undefined]. *)
Definition initialValues : list (string * ValueEventEmitter) :=
  [("latestPqTestResult", ValueEventEmitter.new JUndefined)].

Definition activate : Js unit :=
  w ← get;
  forEach (fun oneProperty => ValueEventEmitter.subscribe oneProperty (Relay oneProperty))
    (keys (values w)).

Definition emitAll : Js unit :=
  w ← get;
  forEach (fun oneProperty => ValueEventEmitter.emit oneProperty None) (keys (values w)).

Definition deActivate : Js unit :=
  w ← get;
  forEach (fun oneProperty => ValueEventEmitter.dispose oneProperty) (keys (values w)).

End SimplePqTestResultViewBroker.

(** [disposable.dispose()] on an owned registration. *)
Definition release (d : IDisposable) : Js unit :=
  log (Release d);;
  match disposeThrows d with
  | Some e => throw e
  | None => mret tt
  end.

Definition setDisposables (ds : list IDisposable) (o : PanelInstance) : PanelInstance :=
  {| _panel := _panel o; _extensionUri := _extensionUri o; _disposables := ds |}.

Module PqTestResultViewPanel.

Definition PqTestResultViewPanelPrefix : string := "powerquery.sdk.pqtest".

Definition ShowResultWebViewCommand : string :=
  PqTestResultViewPanelPrefix +:+ ".ShowResultWebView".

Definition viewType : string := PqTestResultViewPanelPrefix +:+ ".ResultWebView".

Definition viewPaths : list string := ["webviewDist"; "pq-test-result-view"].

Definition getWebviewOptions (extensionUri : Uri) : WebviewOptions :=
  {| enableScripts := true;
     localResourceRoots := [joinPath extensionUri viewPaths] |}.

(** [_getHtmlForWebview]: the markup is constant but for the reference to
    the bundled script; the document is represented by the resource that
    is handed to [asWebviewUri]. *)
Definition _getHtmlForWebview (o : PanelInstance) : Uri :=
  joinPath (_extensionUri o) (viewPaths ++ ["main.js"]).

Definition _update (this : Ref) : Js unit :=
  o ← deref this;
  log (SetTitle (handle (_panel o)) "PQTest result webview");;
  log (SetHtml (handle (_panel o)) (_getHtmlForWebview o)).

(** [this._panel.onDid...(listener, null, this._disposables)]: the host
    records the listener and pushes its registration on the array. *)
Definition listen (this : Ref) (event : Listener) : Js unit :=
  o ← deref this;
  log (Listen (handle (_panel o)) event);;
  modify (fun w =>
    setHeap (<[this := setDisposables (_disposables o ++ [registration (_panel o) event]) o]>
               (heap w)) w).

(** The constructor: allocates the instance with an empty [_disposables],
    renders once and registers the three listeners. *)
Definition new (panel : WebviewPanel) (extensionUri : Uri) : Js Ref :=
  w ← get;
  let this := length (heap w) in
  modify (setHeap (heap w ++ [{| _panel := panel; _extensionUri := extensionUri;
                                 _disposables := [] |}]));;
  _update this;;
  listen this OnDidDispose;;
  listen this OnDidChangeViewState;;
  listen this OnDidReceiveMessage;;
  mret this.

(** The body of [while (this._disposables.length)]: [pending] is the
    array in the order [pop()] yields it, last registered first.  Each
    turn writes the shortened array back before the release is called, so
    a release that throws leaves the earlier registrations in the array.
    Releasing a registration does not touch the array, hence the array
    read on entry fixes the turns of the loop.  (The elements are objects:
    the test [if (disposable)] holds for each of them.) *)
Fixpoint releaseEach (this : Ref) (pending : list IDisposable) : Js unit :=
  match pending with
  | [] => mret tt
  | disposable :: rest =>
      modify (fun w =>
        setHeap (alter (setDisposables (reverse rest)) this (heap w)) w);;
      release disposable;;
      releaseEach this rest
  end.

Definition dispose (this : Ref) : Js unit :=
  modify (setCurrentPanel None);;
  o ← deref this;
  log (DisposeSurface (handle (_panel o)));;
  releaseEach this (reverse (_disposables o)).

(** The host's [createWebviewPanel]: a new surface under the next free
    handle. *)
Definition createWebviewPanel (type title : string) (column : ViewColumn)
    (options : WebviewOptions) : Js WebviewPanel :=
  w ← get;
  let h := nextHandle w in
  modify (setNextHandle (S h));;
  log (CreateWebviewPanel type title column options h);;
  mret (hostPanel h).

Definition createOrShow (extensionUri : Uri) : Js unit :=
  w ← get;
  match currentPanel w with
  | Some cur =>
      o ← deref cur;
      log (Reveal (handle (_panel o)))
  | None =>
      log (ExecuteCommand "workbench.action.editorLayoutTwoColumns");;
      panel ← createWebviewPanel viewType "PQTest result" Beside
                (getWebviewOptions extensionUri);
      this ← new panel extensionUri;
      modify (setCurrentPanel (Some this))
  end.

Definition revive (panel : WebviewPanel) (extensionUri : Uri) : Js unit :=
  this ← new panel extensionUri;
  modify (setCurrentPanel (Some this)).

(** The three listeners the constructor registers. *)

Definition onDidDispose (this : Ref) : Js unit := dispose this.

(** [visible] is [this._panel.visible] as the host reports it when the
    event fires. *)
Definition onDidChangeViewState (this : Ref) (visible : bool) : Js unit :=
  if visible then _update this else mret tt.

(** [switch (message.type) { case "onReady": emitAll(); }] *)
Definition onDidReceiveMessage (message : JValue) : Js unit :=
  type ← liftSum (getProperty message "type");
  if strictEqualsString type "onReady"
  then SimplePqTestResultViewBroker.emitAll
  else mret tt.

(** [activate(vscExtCtx)]: registers the show-command and, when the host
    offers [registerWebviewPanelSerializer], the serializer; activates the
    broker.  [extensionUri] is [vscExtCtx.extensionUri]. *)
Definition activate (extensionUri : Uri) (hostHasSerializers : bool) : Js unit :=
  log (RegisterCommand ShowResultWebViewCommand);;
  (if hostHasSerializers then log (RegisterWebviewPanelSerializer viewType) else mret tt);;
  SimplePqTestResultViewBroker.activate.

(** The handler of the show-command. *)
Definition showResultWebView (extensionUri : Uri) : Js unit := createOrShow extensionUri.

(** [deserializeWebviewPanel] of the serializer: the options of the restored
    surface are reset, then the panel is revived around it. *)
Definition deserializeWebviewPanel (webviewPanel : WebviewPanel) (extensionUri : Uri)
  : Js unit :=
  log (SetOptions (handle webviewPanel) (getWebviewOptions extensionUri));;
  revive webviewPanel extensionUri.

(** What the [Disposable] returned by [activate] runs when disposed. *)
Definition deactivate : Js unit := SimplePqTestResultViewBroker.deActivate.

End PqTestResultViewPanel.

(** The state at module load: the one slot of the broker, no panel. *)
Definition initialWorld : World :=
  {| values := SimplePqTestResultViewBroker.initialValues;
     currentPanel := None;
     heap := [];
     nextHandle := 0;
     trace := [] |}.

(** Running a statement for its final world. *)
Definition exec {A : Type} (m : Js A) (w : World) : World := (m w).2.

Definition outcome {A : Type} (m : Js A) (w : World) : Completion A := (m w).1.

(** The calls logged, without the observed singleton. *)
Definition effects (w : World) : list Effect := effect <$> trace w.

(** ** Observations on the log *)

Definition revealed (t : list Logged) : list nat :=
  omap (fun l => match effect l with Reveal s => Some s | _ => None end) t.

Definition created (t : list Logged) : list nat :=
  omap (fun l => match effect l with
                 | CreateWebviewPanel _ _ _ _ s => Some s
                 | _ => None
                 end) t.

Definition posted (t : list Logged) : list (nat * JValue) :=
  omap (fun l => match effect l with PostMessage s m => Some (s, m) | _ => None end) t.

Definition released (t : list Logged) : list IDisposable :=
  omap (fun l => match effect l with Release d => Some d | _ => None end) t.

(** The arguments consumer [c] was called with, in order. *)
Definition invocations (c : nat) (t : list Logged) : list JValue :=
  omap (fun l => match effect l with
                 | Invoked c' v => if Nat.eqb c' c then Some v else None
                 | _ => None
                 end) t.

(** The outbound envelope of a value update. *)
Definition envelope (property : string) (value : JValue) : JValue :=
  JObject [("type", JString "OnOneValueUpdated");
           ("payload", JObject [("property", JString property); ("value", value)])].

(** The instance the constructor leaves in the heap for [panel]. *)
Definition constructed (panel : WebviewPanel) (extensionUri : Uri) : PanelInstance :=
  {| _panel := panel;
     _extensionUri := extensionUri;
     _disposables := [registration panel OnDidDispose;
                      registration panel OnDidChangeViewState;
                      registration panel OnDidReceiveMessage] |}.

(** What the constructor logs, while the singleton is [cur]. *)
Definition constructionLog (panel : WebviewPanel) (extensionUri : Uri)
    (cur : option Ref) : list Logged :=
  (fun e => {| effect := e; singleton := cur |}) <$>
    [SetTitle (handle panel) "PQTest result webview";
     SetHtml (handle panel)
       (joinPath extensionUri (PqTestResultViewPanel.viewPaths ++ ["main.js"]));
     Listen (handle panel) OnDidDispose;
     Listen (handle panel) OnDidChangeViewState;
     Listen (handle panel) OnDidReceiveMessage].

(** A world whose singleton, when set, refers to an allocated instance. *)
Definition wellFormed (w : World) : Prop :=
  forall cur, currentPanel w = Some cur -> is_Some (heap w !! cur).

(** [n] consecutive runs of a statement. *)
Fixpoint times (n : nat) (m : Js unit) : Js unit :=
  match n with
  | 0 => mret tt
  | S k => m;; times k m
  end.

(** What [createOrShow] logs when it opens a panel on surface [h]. *)
Definition creationLog (extensionUri : Uri) (h : nat) : list Logged :=
  ((fun e => {| effect := e; singleton := None |}) <$>
     [ExecuteCommand "workbench.action.editorLayoutTwoColumns";
      CreateWebviewPanel PqTestResultViewPanel.viewType "PQTest result" Beside
        (PqTestResultViewPanel.getWebviewOptions extensionUri) h])
  ++ constructionLog (hostPanel h) extensionUri None.

(** The world [createOrShow] leaves when there was no panel. *)
Definition opened (extensionUri : Uri) (w : World) : World :=
  {| values := values w;
     currentPanel := Some (length (heap w));
     heap := heap w ++ [constructed (hostPanel (nextHandle w)) extensionUri];
     nextHandle := S (nextHandle w);
     trace := trace w ++ creationLog extensionUri (nextHandle w) |}.

(** How a run of the release loop over [pending] ends: the registrations
    whose [dispose()] was called, those still in the array, and the
    exception that ended the loop, if one did. *)
Record Settled : Type := {
  attempted : list IDisposable;
  remaining : list IDisposable;
  raised : option Exception
}.

Fixpoint settle (pending : list IDisposable) : Settled :=
  match pending with
  | [] => {| attempted := []; remaining := []; raised := None |}
  | d :: rest =>
      match disposeThrows d with
      | Some e => {| attempted := [d]; remaining := rest; raised := Some e |}
      | None =>
          let s := settle rest in
          {| attempted := d :: attempted s; remaining := remaining s; raised := raised s |}
      end
  end.

Definition completion (raised : option Exception) : Completion unit :=
  match raised with
  | Some e => Throw e
  | None => Normal tt
  end.

(** The log entries of calls made while the singleton is [cur]. *)
Definition loggedAt (cur : option Ref) (es : list Effect) : list Logged :=
  (fun e => {| effect := e; singleton := cur |}) <$> es.

(** A restored surface whose message-listener registration fails to
    release. *)
Definition faultyPanel : WebviewPanel :=
  {| handle := 7;
     registration := fun l =>
       {| registeredOn := 7;
          registeredFor := l;
          disposeThrows := match l with
                           | OnDidReceiveMessage => Some (Raised (JString "listener gone"))
                           | _ => None
                           end |} |}.

(** What calling subscriber [cb] with [v] sends out, given the singleton
    and the heap: the relay posts one envelope to the surface of the current
    panel and nothing when there is none; a consumer is seen being called. *)
Definition delivery (cur : option Ref) (hp : list PanelInstance) (v : JValue)
    (cb : Callback) : list Effect :=
  match cb with
  | Relay oneProperty =>
      match cur with
      | None => []
      | Some c =>
          match hp !! c with
          | Some o => [PostMessage (handle (_panel o)) (envelope oneProperty v)]
          | None => []
          end
      end
  | Consumer c => [Invoked c v]
  end.

(** One pass over the subscribers of a slot with its stored value. *)
Definition redelivery (cur : option Ref) (hp : list PanelInstance)
    (s : string * ValueEventEmitter) : list Effect :=
  subscribers s.2 ≫= delivery cur hp (currentValue s.2).

(** The record after each emitter [e] under key [k] became [f k e]. *)
Definition mapSlots (f : string -> ValueEventEmitter -> ValueEventEmitter)
    (vs : list (string * ValueEventEmitter)) : list (string * ValueEventEmitter) :=
  (fun s => (s.1, f s.1 s.2)) <$> vs.

(** The world [SimplePqTestResultViewBroker.activate] leaves: one more
    relay behind the subscribers of every slot. *)
Definition activated (w : World) : World :=
  setValues (mapSlots (fun k => ValueEventEmitter.append (Relay k)) (values w)) w.

(** The record as one [activate()] leaves a broker nobody else subscribed
    to: every slot carries its relay and nothing else. *)
Definition relayOnly (vs : list (string * ValueEventEmitter)) : Prop :=
  Forall (fun s => subscribers s.2 = [Relay s.1]) vs.

(** The inbound message of a surface that finished loading. *)
Definition onReady : JValue := JObject [("type", JString "onReady")].

(** ** The host's event loop *)

Definition Listener_eqb (a b : Listener) : bool :=
  match a, b with
  | OnDidDispose, OnDidDispose => true
  | OnDidChangeViewState, OnDidChangeViewState => true
  | OnDidReceiveMessage, OnDidReceiveMessage => true
  | _, _ => false
  end.

(** An instance still holds its registration for [event]: the listener it
    passed to the host has not been released. *)
Definition listening (o : PanelInstance) (event : Listener) : bool :=
  existsb (fun d => Listener_eqb (registeredFor d) event) (_disposables o).

(** The host calls a listener of instance [r] only while its registration
    stands. *)
Definition whenListening (r : Ref) (event : Listener) (listener : Js unit) : Js unit :=
  fun w =>
    match heap w !! r with
    | Some o => if listening o event then listener w else (Normal tt, w)
    | None => (Normal tt, w)
    end.

(** What reaches the panel subsystem from outside: the show-command, a
    surface reporting closure or a change of visibility, and a value update
    handed to the relay of slot [p]. *)
Inductive HostEvent : Type :=
| ShowCommand
| SurfaceClosed (r : Ref)
| ViewStateChanged (r : Ref) (visible : bool)
| ValueUpdated (p : string) (nextValue : JValue).

Definition dispatch (extensionUri : Uri) (ev : HostEvent) : Js unit :=
  match ev with
  | ShowCommand => PqTestResultViewPanel.showResultWebView extensionUri
  | SurfaceClosed r =>
      whenListening r OnDidDispose (PqTestResultViewPanel.onDidDispose r)
  | ViewStateChanged r visible =>
      whenListening r OnDidChangeViewState
        (PqTestResultViewPanel.onDidChangeViewState r visible)
  | ValueUpdated p nextValue => invoke (Relay p) nextValue
  end.

(** The instances that still hold a registration. *)
Definition holdsRegistrations (o : PanelInstance) : bool :=
  match _disposables o with
  | [] => false
  | _ :: _ => true
  end.

Definition live (w : World) : list Ref :=
  List.filter (fun r => match heap w !! r with
                        | Some o => holdsRegistrations o
                        | None => false
                        end) (seq 0 (length (heap w))).

(** The shape of the heap that show-commands and closures maintain: the
    singleton is an instance built on a surface of the host with its three
    registrations in place; every other instance has released all of its
    own. *)
Definition settled (w : World) : Prop :=
  forall r o, heap w !! r = Some o ->
    match currentPanel w with
    | Some cur =>
        if Nat.eqb r cur
        then exists h, o = constructed (hostPanel h) (_extensionUri o)
        else _disposables o = []
    | None => _disposables o = []
    end.

(** ** The constants of the extension *)

Module ExtensionConstants.

Definition InternalMsftPqSdkToolsNugetName : string := "Microsoft.PowerQuery.SdkTools".

Definition PublicMsftPqSdkToolsNugetName : string := InternalMsftPqSdkToolsNugetName.

Definition SuggestedPqTestNugetVersion : string := "2.109.5".

Definition PqTestSubPath : list string :=
  [InternalMsftPqSdkToolsNugetName +:+ "." +:+ SuggestedPqTestNugetVersion;
   "tools"; "PQTest.exe"].

Definition buildPqTestSubPath (pqTestVersion : string) : list string :=
  [InternalMsftPqSdkToolsNugetName +:+ "." +:+ pqTestVersion; "tools"; "PQTest.exe"].

(** [osType] is what [os.type()] returns. *)
Definition NugetExecutableName (osType : string) : string :=
  if String.eqb osType "Windows_NT" then "Nuget.exe" else "nuget".

End ExtensionConstants.

(** Unfolding the primitives of [Js]. *)
Ltac js_unfold :=
  unfold mbind, mret, Js_bind, Js_ret, log, liftSum, deref, exec, outcome in *;
  unfold get, modify, throw in *.

(** * Properties *)

(** ** The panel singleton *)

Lemma wellFormed_setTrace (t : list Logged) (w : World) :
  wellFormed w -> wellFormed (setTrace t w).
Proof. by destruct w. Qed.

Lemma wellFormed_setValues (vs : list (string * ValueEventEmitter)) (w : World) :
  wellFormed w -> wellFormed (setValues vs w).
Proof. by destruct w. Qed.

Lemma wellFormed_current (w : World) (cur : Ref) (o : PanelInstance) :
  currentPanel w = Some cur -> heap w !! cur = Some o -> wellFormed w.
Proof. intros Hcur Ho c Hc. rewrite Hcur in Hc. injection Hc as <-. by exists o. Qed.

Lemma wellFormed_absent (w : World) : currentPanel w = None -> wellFormed w.
Proof. intros Hcur c Hc. by rewrite Hcur in Hc. Qed.

Lemma run_bind {A B : Type} (m : Js A) (k : A -> Js B) (w : World) :
  (m ≫= k) w =
  match m w with
  | (Normal a, w') => k a w'
  | (Throw e, w') => (Throw e, w')
  end.
Proof. reflexivity. Qed.

Lemma lookup_snoc {A : Type} (l : list A) (x : A) : (l ++ [x]) !! length l = Some x.
Proof. by apply list_lookup_middle. Qed.

Lemma insert_snoc {A : Type} (l : list A) (x y : A) :
  <[length l := y]> (l ++ [x]) = l ++ [y].
Proof. by rewrite insert_app_r_alt, Nat.sub_diag. Qed.

Lemma update_run (this : Ref) (o : PanelInstance) (w : World) :
  heap w !! this = Some o ->
  PqTestResultViewPanel._update this w =
  (Normal tt,
   setTrace (trace w ++
     [{| effect := SetTitle (handle (_panel o)) "PQTest result webview";
         singleton := currentPanel w |};
      {| effect := SetHtml (handle (_panel o))
                     (joinPath (_extensionUri o)
                        (PqTestResultViewPanel.viewPaths ++ ["main.js"]));
         singleton := currentPanel w |}]) w).
Proof.
  intros Ho. unfold PqTestResultViewPanel._update. js_unfold. rewrite Ho.
  destruct w; cbn. by rewrite <- app_assoc.
Qed.

Lemma listen_run (this : Ref) (o : PanelInstance) (event : Listener) (w : World) :
  heap w !! this = Some o ->
  PqTestResultViewPanel.listen this event w =
  (Normal tt,
   setHeap (<[this := setDisposables
                        (_disposables o ++ [registration (_panel o) event]) o]> (heap w))
     (setTrace (trace w ++ [{| effect := Listen (handle (_panel o)) event;
                               singleton := currentPanel w |}]) w)).
Proof.
  intros Ho. unfold PqTestResultViewPanel.listen. js_unfold. rewrite Ho.
  by destruct w.
Qed.

Lemma new_run (panel : WebviewPanel) (extensionUri : Uri) (w : World) :
  PqTestResultViewPanel.new panel extensionUri w =
  (Normal (length (heap w)),
   setTrace (trace w ++ constructionLog panel extensionUri (currentPanel w))
     (setHeap (heap w ++ [constructed panel extensionUri]) w)).
Proof.
  destruct w as [vs cp hp nh tr].
  unfold PqTestResultViewPanel.new.
  rewrite run_bind; cbn [get heap].
  rewrite run_bind; cbn [modify setHeap heap values currentPanel nextHandle trace].
  rewrite run_bind. erewrite update_run by apply lookup_snoc.
  rewrite run_bind. erewrite listen_run by apply lookup_snoc.
  cbn [setHeap setTrace heap values currentPanel nextHandle trace
       setDisposables _panel _extensionUri _disposables].
  rewrite insert_snoc.
  rewrite run_bind. erewrite listen_run by apply lookup_snoc.
  cbn [setHeap setTrace heap values currentPanel nextHandle trace
       setDisposables _panel _extensionUri _disposables].
  rewrite insert_snoc.
  rewrite run_bind. erewrite listen_run by apply lookup_snoc.
  cbn [setHeap setTrace heap values currentPanel nextHandle trace
       setDisposables _panel _extensionUri _disposables].
  rewrite insert_snoc.
  unfold constructionLog, constructed. cbn.
  by rewrite <- !app_assoc.
Qed.

Lemma createOrShow_active (extensionUri : Uri) (w : World) (cur : Ref) (o : PanelInstance) :
  currentPanel w = Some cur ->
  heap w !! cur = Some o ->
  PqTestResultViewPanel.createOrShow extensionUri w =
  (Normal tt,
   setTrace (trace w ++ [{| effect := Reveal (handle (_panel o));
                            singleton := Some cur |}]) w).
Proof.
  intros Hcur Ho. unfold PqTestResultViewPanel.createOrShow.
  rewrite run_bind; cbn [get]. rewrite Hcur.
  js_unfold. by rewrite Ho, Hcur.
Qed.

Lemma createOrShow_absent (extensionUri : Uri) (w : World) :
  currentPanel w = None ->
  PqTestResultViewPanel.createOrShow extensionUri w =
  (Normal tt, opened extensionUri w).
Proof.
  intros Hcur. destruct w as [vs cp hp nh tr]; cbn in Hcur; subst cp.
  unfold PqTestResultViewPanel.createOrShow.
  rewrite run_bind; cbn [get currentPanel].
  rewrite run_bind; cbn [log modify setTrace trace currentPanel values heap nextHandle].
  rewrite run_bind. unfold PqTestResultViewPanel.createWebviewPanel at 1.
  js_unfold; cbn [setTrace setNextHandle trace currentPanel values heap nextHandle].
  rewrite new_run.
  unfold opened, creationLog; cbn.
  by rewrite <- !app_assoc.
Qed.

Lemma times_reveal (extensionUri : Uri) (n : nat) (w : World) (cur : Ref) (o : PanelInstance) :
  currentPanel w = Some cur ->
  heap w !! cur = Some o ->
  times n (PqTestResultViewPanel.createOrShow extensionUri) w =
  (Normal tt,
   setTrace (trace w ++ replicate n {| effect := Reveal (handle (_panel o));
                                       singleton := Some cur |}) w).
Proof.
  revert w. induction n as [|n IH]; intros w Hcur Ho.
  - cbn. destruct w; cbn. by rewrite app_nil_r.
  - cbn [times]. rewrite run_bind, (createOrShow_active _ _ cur o) by done.
    rewrite IH by (by destruct w).
    destruct w; cbn. by rewrite <- app_assoc.
Qed.

Lemma created_app (t1 t2 : list Logged) : created (t1 ++ t2) = created t1 ++ created t2.
Proof. apply omap_app. Qed.

Lemma revealed_app (t1 t2 : list Logged) : revealed (t1 ++ t2) = revealed t1 ++ revealed t2.
Proof. apply omap_app. Qed.

Lemma posted_app (t1 t2 : list Logged) : posted (t1 ++ t2) = posted t1 ++ posted t2.
Proof. apply omap_app. Qed.

Lemma released_app (t1 t2 : list Logged) : released (t1 ++ t2) = released t1 ++ released t2.
Proof. apply omap_app. Qed.

Lemma invocations_app (c : nat) (t1 t2 : list Logged) :
  invocations c (t1 ++ t2) = invocations c t1 ++ invocations c t2.
Proof. apply omap_app. Qed.

Lemma times_show_initial (extensionUri : Uri) (n : nat) :
  length (heap (exec (times n (PqTestResultViewPanel.createOrShow extensionUri))
                  initialWorld)) = Nat.min n 1.
Proof.
  destruct n as [|n]; [reflexivity|].
  unfold exec. cbn [times].
  rewrite run_bind, createOrShow_absent by reflexivity.
  erewrite times_reveal by reflexivity.
  cbn. by rewrite Nat.min_0_r.
Qed.

(** C1. From a world without a panel, the first show-command constructs
    exactly one instance (one surface created, no reveal) and makes it the
    singleton; each of the [n] show-commands that follow leaves heap and
    singleton as they are and makes exactly one [reveal()] call on that
    instance's surface.  In particular ([n = 1]) two consecutive
    show-commands yield one created instance and one reveal, made by the
    second; from the initial world no sequence of show-commands ever
    allocates a second instance; and in any world where the singleton is
    set, a show-command is one [reveal()] on its surface and nothing else. *)
Theorem createOrShow_single_instance (extensionUri : Uri) (w : World) (n : nat) :
  currentPanel w = None ->
  let show := PqTestResultViewPanel.createOrShow extensionUri in
  let w1 := exec show w in
  let wn := exec (times n show) w1 in
  outcome (show;; times n show) w = Normal tt
  /\ heap w1 = heap w ++ [constructed (hostPanel (nextHandle w)) extensionUri]
  /\ currentPanel w1 = Some (length (heap w))
  /\ created (trace w1) = created (trace w) ++ [nextHandle w]
  /\ revealed (trace w1) = revealed (trace w)
  /\ heap wn = heap w1
  /\ currentPanel wn = currentPanel w1
  /\ trace wn = trace w1 ++ replicate n {| effect := Reveal (nextHandle w);
                                           singleton := Some (length (heap w)) |}
  /\ created (trace wn) = created (trace w) ++ [nextHandle w]
  /\ revealed (trace wn) = revealed (trace w) ++ replicate n (nextHandle w)
  /\ (forall k, length (heap (exec (times k show) initialWorld)) = Nat.min k 1)
  /\ (forall w0 cur o, currentPanel w0 = Some cur -> heap w0 !! cur = Some o ->
        show w0 = (Normal tt,
                   setTrace (trace w0 ++ [{| effect := Reveal (handle (_panel o));
                                             singleton := Some cur |}]) w0)).
Proof.
  intros Hcur show w1 wn.
  assert (Hw1 : w1 = opened extensionUri w).
  { unfold w1, exec, show. by rewrite createOrShow_absent. }
  assert (Hrun : times n show w1 =
                 (Normal tt,
                  setTrace (trace w1 ++
                    replicate n {| effect := Reveal (nextHandle w);
                                   singleton := Some (length (heap w)) |}) w1)).
  { unfold show. rewrite Hw1.
    apply (times_reveal extensionUri n (opened extensionUri w) (length (heap w))
             (constructed (hostPanel (nextHandle w)) extensionUri)).
    - reflexivity.
    - apply lookup_snoc. }
  assert (Hwn : wn = setTrace (trace w1 ++
                    replicate n {| effect := Reveal (nextHandle w);
                                   singleton := Some (length (heap w)) |}) w1).
  { unfold wn, exec. by rewrite Hrun. }
  assert (Hc1 : created (trace w1) = created (trace w) ++ [nextHandle w]).
  { rewrite Hw1. unfold opened; cbn [trace]. by rewrite created_app. }
  assert (Hr1 : revealed (trace w1) = revealed (trace w)).
  { rewrite Hw1. unfold opened; cbn [trace]. rewrite revealed_app. cbn. apply app_nil_r. }
  assert (Hrep : forall (x : Logged) m, effect x = Reveal (nextHandle w) ->
            created (replicate m x) = [] /\ revealed (replicate m x) = replicate m (nextHandle w)).
  { intros [e s] m Hx. cbn in Hx. subst e.
    induction m as [|m [IHc IHr]]; [done|].
    unfold created, revealed in *. cbn. by rewrite IHc, IHr. }
  destruct (Hrep {| effect := Reveal (nextHandle w); singleton := Some (length (heap w)) |}
              n eq_refl) as [Hcn Hrn].
  repeat split.
  - unfold outcome. rewrite run_bind. unfold show at 1.
    rewrite createOrShow_absent by done. fold show. rewrite <- Hw1. by rewrite Hrun.
  - by rewrite Hw1.
  - by rewrite Hw1.
  - exact Hc1.
  - exact Hr1.
  - by rewrite Hwn.
  - by rewrite Hwn.
  - by rewrite Hwn.
  - rewrite Hwn; cbn [setTrace trace]. by rewrite created_app, Hcn, app_nil_r.
  - rewrite Hwn; cbn [setTrace trace]. by rewrite revealed_app, Hrn, Hr1.
  - intros k. apply times_show_initial.
  - intros w0 cur o Hc0 Ho0. by apply createOrShow_active.
Qed.

Lemma createOrShow_single_instance_witness :
  let show := PqTestResultViewPanel.createOrShow ["ext"] in
  currentPanel initialWorld = None
  /\ created (trace (exec (times 1 show) (exec show initialWorld))) =
       created (trace initialWorld) ++ [nextHandle initialWorld]
  /\ revealed (trace (exec (times 1 show) (exec show initialWorld))) =
       revealed (trace initialWorld) ++ replicate 1 (nextHandle initialWorld).
Proof.
  intros show. split; [reflexivity|].
  pose proof (createOrShow_single_instance ["ext"] initialWorld 1 eq_refl) as H.
  cbv zeta in H. fold show in H.
  destruct H as (_ & _ & _ & _ & _ & _ & _ & _ & Hc & Hr & _).
  split; [exact Hc | exact Hr].
Defined.

(** Outside the show-command: [revive] does not look at the singleton.
    Reviving a surface while a panel is open allocates a second instance and
    makes it the singleton; the first one keeps its registrations. *)
Example revive_replaces_singleton :
  let w := exec (PqTestResultViewPanel.createOrShow ["ext"];;
                 PqTestResultViewPanel.revive (hostPanel 9) ["ext"]) initialWorld in
  currentPanel w = Some 1
  /\ heap w = [constructed (hostPanel 0) ["ext"]; constructed (hostPanel 9) ["ext"]].
Proof. split; reflexivity. Qed.

(** The singleton of a reachable world refers to an instance. *)
Lemma wellFormed_initial : wellFormed initialWorld.
Proof. by apply wellFormed_absent. Qed.

Lemma wellFormed_createOrShow (extensionUri : Uri) (w : World) :
  wellFormed w -> wellFormed (exec (PqTestResultViewPanel.createOrShow extensionUri) w).
Proof.
  intros Hwf. unfold exec. destruct (currentPanel w) as [cur|] eqn:Hcur.
  - destruct (Hwf cur Hcur) as [o Ho].
    rewrite (createOrShow_active extensionUri w cur o) by done.
    by apply wellFormed_setTrace.
  - rewrite createOrShow_absent by done.
    eapply wellFormed_current; [reflexivity | apply lookup_snoc].
Qed.

Lemma wellFormed_revive (panel : WebviewPanel) (extensionUri : Uri) (w : World) :
  wellFormed (exec (PqTestResultViewPanel.revive panel extensionUri) w).
Proof.
  unfold exec, PqTestResultViewPanel.revive. rewrite run_bind, new_run.
  eapply wellFormed_current; [reflexivity | destruct w; apply lookup_snoc].
Qed.

(** ** Inbound messages *)

Lemma strictEqualsString_spec (a : JValue) (s : string) :
  strictEqualsString a s = true <-> a = JString s.
Proof.
  destruct a; cbn; try (split; [discriminate | intros; discriminate]).
  rewrite String.eqb_eq. split; [congruence | by intros [= ->]].
Qed.

(** C2. For every inbound message whose [type] can be read: when the type
    is the string ["onReady"] the handler does what one call of
    [emitAll()] does, nothing before and nothing after; when it is any
    other value the handler completes normally and leaves the world, the
    slots of the broker and the log included, untouched. *)
Theorem onDidReceiveMessage_dispatch (message type : JValue) (w : World) :
  getProperty message "type" = inr type ->
  (type = JString "onReady" ->
     PqTestResultViewPanel.onDidReceiveMessage message w =
     SimplePqTestResultViewBroker.emitAll w)
  /\ (type <> JString "onReady" ->
     PqTestResultViewPanel.onDidReceiveMessage message w = (Normal tt, w)).
Proof.
  intros Htype. unfold PqTestResultViewPanel.onDidReceiveMessage.
  rewrite run_bind, Htype. cbn [liftSum]. unfold mret, Js_ret.
  split; intros H.
  - subst type. reflexivity.
  - destruct (strictEqualsString type "onReady") eqn:E; [|reflexivity].
    apply strictEqualsString_spec in E. contradiction.
Qed.

Lemma onDidReceiveMessage_dispatch_witness :
  (PqTestResultViewPanel.onDidReceiveMessage
     (JObject [("type", JString "onReady")]) initialWorld =
   SimplePqTestResultViewBroker.emitAll initialWorld)
  /\ (PqTestResultViewPanel.onDidReceiveMessage
        (JObject [("type", JString "onResize"); ("width", JNumber 80)]) initialWorld =
      (Normal tt, initialWorld)).
Proof.
  split.
  - exact (proj1 (onDidReceiveMessage_dispatch
             (JObject [("type", JString "onReady")]) (JString "onReady") initialWorld
             eq_refl) eq_refl).
  - refine (proj2 (onDidReceiveMessage_dispatch
             (JObject [("type", JString "onResize"); ("width", JNumber 80)])
             (JString "onResize") initialWorld eq_refl) _).
    discriminate.
Defined.

(** A message that is [null] has no [type] to dispatch on: reading it
    throws. *)
Example onDidReceiveMessage_null :
  PqTestResultViewPanel.onDidReceiveMessage JNull initialWorld =
  (Throw (TypeError "Cannot read properties of null"), initialWorld).
Proof. reflexivity. Qed.

(** ** Disposal *)

Lemma release_run (d : IDisposable) (w : World) :
  release d w =
  (completion (disposeThrows d),
   setTrace (trace w ++ [{| effect := Release d; singleton := currentPanel w |}]) w).
Proof.
  unfold release. rewrite run_bind. js_unfold.
  by destruct (disposeThrows d).
Qed.

Lemma alter_insert {A : Type} (f : A -> A) (l : list A) (i : nat) (x : A) :
  l !! i = Some x -> alter f i l = <[i := f x]> l.
Proof.
  revert i. induction l as [|y l IH]; intros [|i] H; try done.
  - cbn in H. by injection H as ->.
  - cbn in *. by rewrite (IH i).
Qed.

Lemma setDisposables_own (o : PanelInstance) : setDisposables (_disposables o) o = o.
Proof. by destruct o. Qed.

Lemma releaseEach_run (this : Ref) (pending : list IDisposable) :
  forall (w : World) (o : PanelInstance),
    heap w !! this = Some o ->
    _disposables o = reverse pending ->
    PqTestResultViewPanel.releaseEach this pending w =
    (completion (raised (settle pending)),
     setTrace (trace w ++ loggedAt (currentPanel w) (Release <$> attempted (settle pending)))
       (setHeap (<[this := setDisposables (reverse (remaining (settle pending))) o]> (heap w))
          w)).
Proof.
  induction pending as [|d rest IH]; intros w o Ho Hown.
  - assert (Hsame : setDisposables [] o = o).
    { change [] with (@reverse IDisposable []). rewrite <- Hown.
      apply setDisposables_own. }
    cbn. rewrite Hsame, list_insert_id by done.
    destruct w; cbn. by rewrite app_nil_r.
  - cbn [PqTestResultViewPanel.releaseEach].
    rewrite run_bind. cbn [modify].
    rewrite (alter_insert _ _ _ o) by done.
    rewrite run_bind, release_run.
    assert (Hlt : this < length (heap w)) by by eapply lookup_lt_Some.
    cbn [settle]. destruct (disposeThrows d) as [e|].
    + destruct w; cbn. reflexivity.
    + cbn [completion].
      erewrite IH; cycle 1.
      * destruct w; cbn in *. by apply list_lookup_insert_eq.
      * reflexivity.
      * destruct w; cbn. rewrite list_insert_insert_eq.
        by rewrite <- app_assoc.
Qed.

Lemma dispose_run (this : Ref) (w : World) (o : PanelInstance) :
  heap w !! this = Some o ->
  let s := settle (reverse (_disposables o)) in
  PqTestResultViewPanel.dispose this w =
  (completion (raised s),
   {| values := values w;
      currentPanel := None;
      heap := <[this := setDisposables (reverse (remaining s)) o]> (heap w);
      nextHandle := nextHandle w;
      trace := trace w ++
        loggedAt None (DisposeSurface (handle (_panel o)) :: (Release <$> attempted s)) |}).
Proof.
  intros Ho s. unfold PqTestResultViewPanel.dispose.
  rewrite run_bind. cbn [modify].
  rewrite run_bind. unfold deref at 1. cbn [setCurrentPanel heap]. rewrite Ho.
  rewrite run_bind. cbn [log modify].
  erewrite releaseEach_run; cycle 1.
  - destruct w; cbn in *. exact Ho.
  - by rewrite reverse_involutive.
  - destruct w; cbn. by rewrite <- app_assoc.
Qed.

Lemma dispose_dangling (this : Ref) (w : World) :
  heap w !! this = None ->
  PqTestResultViewPanel.dispose this w =
  (Throw (TypeError "no such instance"), setCurrentPanel None w).
Proof.
  intros Ho. unfold PqTestResultViewPanel.dispose.
  rewrite run_bind. cbn [modify].
  rewrite run_bind. unfold deref at 1. cbn [setCurrentPanel heap]. by rewrite Ho.
Qed.

Lemma settle_clean (l : list IDisposable) :
  Forall (fun d => disposeThrows d = None) l ->
  settle l = {| attempted := l; remaining := []; raised := None |}.
Proof.
  induction 1 as [|d l Hd _ IH]; [reflexivity|].
  cbn. by rewrite Hd, IH.
Qed.

Lemma settle_fault (l1 l2 : list IDisposable) (d : IDisposable) (e : Exception) :
  Forall (fun d => disposeThrows d = None) l1 ->
  disposeThrows d = Some e ->
  settle (l1 ++ d :: l2) = {| attempted := l1 ++ [d]; remaining := l2; raised := Some e |}.
Proof.
  intros Hclean Hd. induction Hclean as [|x l1 Hx _ IH]; cbn.
  - by rewrite Hd.
  - by rewrite Hx, IH.
Qed.

Lemma released_dispose_log (cur : option Ref) (h : nat) (l : list IDisposable) :
  released (loggedAt cur (DisposeSurface h :: (Release <$> l))) = l.
Proof.
  unfold released, loggedAt. cbn.
  induction l as [|d l IH]; [reflexivity|]. cbn. by rewrite IH.
Qed.

Lemma dispose_then_show (this : Ref) (o : PanelInstance) (w : World) (extensionUri : Uri) :
  heap w !! this = Some o ->
  let w' := exec (PqTestResultViewPanel.dispose this) w in
  let w'' := exec (PqTestResultViewPanel.createOrShow extensionUri) w' in
  currentPanel w' = None
  /\ this < length (heap w)
  /\ currentPanel w'' = Some (length (heap w))
  /\ heap w'' = heap w' ++ [constructed (hostPanel (nextHandle w)) extensionUri].
Proof.
  intros Ho w' w''.
  assert (Hw' : currentPanel w' = None /\ length (heap w') = length (heap w)
                /\ nextHandle w' = nextHandle w).
  { unfold w', exec. rewrite (dispose_run this w o Ho). cbn.
    by rewrite length_insert. }
  destruct Hw' as (Hcur & Hlen & Hnext).
  assert (Hw'' : w'' = opened extensionUri w').
  { unfold w'', exec. by rewrite createOrShow_absent. }
  split; [exact Hcur|]. split; [by eapply lookup_lt_Some|].
  rewrite Hw''. unfold opened; cbn. by rewrite Hlen, Hnext.
Qed.

(** C3 (amended). When the surface reports closure the singleton reference
    is cleared whatever follows, and the owned registrations are released
    one at a time, last registered first.  If no release throws, every one
    of them is released exactly once and the list ends empty.  A release
    that throws ends the disposal: the exception reaches the caller, the
    registrations pushed after the faulty one have been released once, and
    those pushed before it stay in the list, unreleased.  In every case a
    subsequent show-command allocates a fresh instance. *)
Theorem dispose_releases_until_fault (this : Ref) (o : PanelInstance) (w : World)
    (extensionUri : Uri) :
  heap w !! this = Some o ->
  let close := PqTestResultViewPanel.onDidDispose this in
  let w' := exec close w in
  let w'' := exec (PqTestResultViewPanel.createOrShow extensionUri) w' in
  currentPanel w' = None
  /\ (Forall (fun d => disposeThrows d = None) (_disposables o) ->
        outcome close w = Normal tt
        /\ released (trace w') = released (trace w) ++ reverse (_disposables o)
        /\ _disposables <$> heap w' !! this = Some [])
  /\ (forall earlier d later e,
        _disposables o = earlier ++ d :: later ->
        disposeThrows d = Some e ->
        Forall (fun d => disposeThrows d = None) later ->
        outcome close w = Throw e
        /\ released (trace w') = released (trace w) ++ reverse later ++ [d]
        /\ _disposables <$> heap w' !! this = Some earlier)
  /\ this < length (heap w)
  /\ currentPanel w'' = Some (length (heap w))
  /\ heap w'' = heap w' ++ [constructed (hostPanel (nextHandle w)) extensionUri].
Proof.
  intros Ho close w' w''.
  destruct (dispose_then_show this o w extensionUri Ho) as (Hcur & Hlt & Hnew & Hheap).
  pose proof (dispose_run this w o Ho) as Hrun. cbv zeta in Hrun.
  split; [exact Hcur|]. split; [|split; [|by repeat split]].
  - intros Hclean.
    assert (Hs : settle (reverse (_disposables o)) =
                 {| attempted := reverse (_disposables o); remaining := []; raised := None |}).
    { apply settle_clean. by apply Forall_reverse. }
    rewrite Hs in Hrun. cbn [attempted remaining raised completion] in Hrun.
    unfold w', close, outcome, exec, PqTestResultViewPanel.onDidDispose. rewrite Hrun.
    cbn [fst snd trace heap].
    rewrite released_app, released_dispose_log, list_lookup_insert_eq by done.
    done.
  - intros earlier d later e Hown Hd Hclean.
    assert (Hs : settle (reverse (_disposables o)) =
                 {| attempted := reverse later ++ [d]; remaining := reverse earlier;
                    raised := Some e |}).
    { rewrite Hown, reverse_app, reverse_cons, <- app_assoc. cbn.
      apply settle_fault; [by apply Forall_reverse | done]. }
    rewrite Hs in Hrun. cbn [attempted remaining raised completion] in Hrun.
    unfold w', close, outcome, exec, PqTestResultViewPanel.onDidDispose. rewrite Hrun.
    cbn [fst snd trace heap].
    rewrite released_app, released_dispose_log, list_lookup_insert_eq by done.
    cbn. by rewrite reverse_involutive.
Qed.

Lemma dispose_releases_until_fault_witness :
  let w := exec (PqTestResultViewPanel.createOrShow ["ext"]) initialWorld in
  let o := constructed (hostPanel 0) ["ext"] in
  heap w !! 0 = Some o
  /\ currentPanel (exec (PqTestResultViewPanel.onDidDispose 0) w) = None
  /\ released (trace (exec (PqTestResultViewPanel.onDidDispose 0) w)) =
       released (trace w) ++ reverse (_disposables o).
Proof.
  intros w o.
  assert (Ho : heap w !! 0 = Some o) by reflexivity.
  split; [exact Ho|].
  destruct (dispose_releases_until_fault 0 o w ["ext"] Ho) as (Hcur & Hclean & _).
  split; [exact Hcur|].
  apply Hclean. repeat constructor.
Defined.

(** C3, as stated, fails.  A revived surface whose last registration throws
    on release: closure releases that one registration, the exception leaves
    the loop, and the two registrations pushed before it are never
    released. *)
Lemma dispose_fault_blocks_remaining_releases :
  let w := exec (PqTestResultViewPanel.revive faultyPanel ["ext"]) initialWorld in
  let w' := exec (PqTestResultViewPanel.onDidDispose 0) w in
  _disposables <$> heap w !! 0 =
    Some [registration faultyPanel OnDidDispose;
          registration faultyPanel OnDidChangeViewState;
          registration faultyPanel OnDidReceiveMessage]
  /\ outcome (PqTestResultViewPanel.onDidDispose 0) w = Throw (Raised (JString "listener gone"))
  /\ released (trace w') = [registration faultyPanel OnDidReceiveMessage]
  /\ _disposables <$> heap w' !! 0 =
       Some [registration faultyPanel OnDidDispose;
             registration faultyPanel OnDidChangeViewState]
  /\ ~ (forall d, d ∈ [registration faultyPanel OnDidDispose;
                        registration faultyPanel OnDidChangeViewState;
                        registration faultyPanel OnDidReceiveMessage] ->
                   d ∈ released (trace w')).
Proof.
  intros w w'.
  assert (Hrel : released (trace w') = [registration faultyPanel OnDidReceiveMessage])
    by (vm_compute; reflexivity).
  repeat split; try (vm_compute; reflexivity).
  intros Hall. specialize (Hall (registration faultyPanel OnDidDispose)).
  rewrite Hrel in Hall.
  assert (Hin : registration faultyPanel OnDidDispose ∈
                [registration faultyPanel OnDidReceiveMessage]).
  { apply Hall. apply list_elem_of_here. }
  apply list_elem_of_singleton in Hin. discriminate Hin.
Qed.

Lemma loggedAt_singleton (cur : option Ref) (es : list Effect) :
  Forall (fun l => singleton l = cur) (loggedAt cur es).
Proof. unfold loggedAt. apply Forall_fmap. by apply Forall_true. Qed.

(** C10. [dispose()] empties the singleton before anything else: the
    surface's [dispose()] and every release of a registration are called
    with [currentPanel] already empty, and it is empty in the world
    [dispose()] leaves, whether it returns or throws (a release that
    raises, a reference that is not an instance).  The show-command that
    follows therefore allocates a new instance. *)
Theorem dispose_clears_singleton_first (this : Ref) (w : World) (extensionUri : Uri) :
  let w' := exec (PqTestResultViewPanel.dispose this) w in
  let w'' := exec (PqTestResultViewPanel.createOrShow extensionUri) w' in
  currentPanel w' = None
  /\ (exists calls, trace w' = trace w ++ calls
                    /\ Forall (fun l => singleton l = None) calls)
  /\ (forall o, heap w !! this = Some o ->
        exists ds, trace w' = trace w ++
          loggedAt None (DisposeSurface (handle (_panel o)) :: (Release <$> ds)))
  /\ currentPanel w'' = Some (length (heap w'))
  /\ heap w'' = heap w' ++ [constructed (hostPanel (nextHandle w')) extensionUri].
Proof.
  intros w' w''.
  assert (Hcur : currentPanel w' = None).
  { unfold w', exec. destruct (heap w !! this) as [o|] eqn:Ho.
    - by rewrite (dispose_run this w o Ho).
    - by rewrite (dispose_dangling this w Ho). }
  assert (Hw'' : w'' = opened extensionUri w').
  { unfold w'', exec. by rewrite createOrShow_absent. }
  split; [exact Hcur|]. split; [|split; [|by rewrite Hw'']].
  - unfold w', exec. destruct (heap w !! this) as [o|] eqn:Ho.
    + rewrite (dispose_run this w o Ho). cbn [snd trace].
      eexists; split; [reflexivity | apply loggedAt_singleton].
    + rewrite (dispose_dangling this w Ho). exists []. split; [|constructor].
      destruct w; cbn. by rewrite app_nil_r.
  - intros o Ho. unfold w', exec. rewrite (dispose_run this w o Ho). cbn [snd trace].
    by eexists.
Qed.

Lemma dispose_clears_singleton_first_witness :
  let w := exec (PqTestResultViewPanel.revive faultyPanel ["ext"]) initialWorld in
  currentPanel w = Some 0
  /\ outcome (PqTestResultViewPanel.dispose 0) w = Throw (Raised (JString "listener gone"))
  /\ currentPanel (exec (PqTestResultViewPanel.dispose 0) w) = None
  /\ exists ds, trace (exec (PqTestResultViewPanel.dispose 0) w) = trace w ++
       loggedAt None (DisposeSurface 7 :: (Release <$> ds)).
Proof.
  intros w.
  split; [reflexivity|]. split; [vm_compute; reflexivity|].
  destruct (dispose_clears_singleton_first 0 w ["ext"]) as (Hcur & _ & Hlog & _).
  split; [exact Hcur|].
  apply (Hlog (constructed faultyPanel ["ext"])). reflexivity.
Defined.

(** ** The broker *)

Lemma invoke_run (cb : Callback) (v : JValue) (w : World) :
  wellFormed w ->
  invoke cb v w =
  (Normal tt,
   setTrace (trace w ++ loggedAt (currentPanel w) (delivery (currentPanel w) (heap w) v cb)) w).
Proof.
  intros Hwf. destruct cb as [p|c]; cbn [invoke delivery].
  - rewrite run_bind; cbn [get].
    destruct (currentPanel w) as [cur|] eqn:Hcur.
    + destruct (Hwf cur Hcur) as [o Ho]. rewrite Ho.
      unfold postOneMessage. rewrite run_bind. unfold deref at 1. rewrite Ho.
      destruct w; cbn in *. by subst.
    + destruct w; cbn. by rewrite app_nil_r.
  - reflexivity.
Qed.

Lemma loggedAt_app (cur : option Ref) (l1 l2 : list Effect) :
  loggedAt cur (l1 ++ l2) = loggedAt cur l1 ++ loggedAt cur l2.
Proof. apply fmap_app. Qed.

Lemma notify_run (cbs : list Callback) (v : JValue) (w : World) :
  wellFormed w ->
  forEach (fun cb => invoke cb v) cbs w =
  (Normal tt,
   setTrace (trace w ++ loggedAt (currentPanel w)
                          (cbs ≫= delivery (currentPanel w) (heap w) v)) w).
Proof.
  revert w. induction cbs as [|cb cbs IH]; intros w Hwf.
  - cbn. destruct w; cbn. by rewrite app_nil_r.
  - cbn [forEach]. rewrite run_bind, invoke_run by done.
    rewrite IH by by apply wellFormed_setTrace.
    destruct w; cbn [setTrace trace currentPanel heap values nextHandle].
    by rewrite bind_cons, loggedAt_app, <- app_assoc.
Qed.

Lemma lookupSlot_app_fresh (k : string) (e : ValueEventEmitter)
    (l1 l2 : list (string * ValueEventEmitter)) :
  k ∉ keys l1 -> lookupSlot k (l1 ++ (k, e) :: l2) = Some e.
Proof.
  induction l1 as [|[k' e'] l1 IH]; intros Hk; cbn.
  - by rewrite String.eqb_refl.
  - unfold keys in Hk. cbn in Hk. apply not_elem_of_cons in Hk as [Hne Hk].
    destruct (String.eqb_spec k' k) as [->|_]; [done|]. by apply IH.
Qed.

Lemma alterSlot_app_fresh (f : ValueEventEmitter -> ValueEventEmitter) (k : string)
    (e : ValueEventEmitter) (l1 l2 : list (string * ValueEventEmitter)) :
  k ∉ keys l1 -> alterSlot f k (l1 ++ (k, e) :: l2) = l1 ++ (k, f e) :: l2.
Proof.
  induction l1 as [|[k' e'] l1 IH]; intros Hk; cbn.
  - by rewrite String.eqb_refl.
  - unfold keys in Hk. cbn in Hk. apply not_elem_of_cons in Hk as [Hne Hk].
    destruct (String.eqb_spec k' k) as [->|_]; [done|]. by rewrite IH.
Qed.

(** In a record, whose keys are distinct, a listed binding is the one a
    lookup finds. *)
Lemma lookupSlot_elem (vs : list (string * ValueEventEmitter)) (k : string)
    (e : ValueEventEmitter) :
  NoDup (keys vs) -> (k, e) ∈ vs -> lookupSlot k vs = Some e.
Proof.
  intros Hnd Hin. apply list_elem_of_split in Hin as (l1 & l2 & ->).
  apply lookupSlot_app_fresh.
  unfold keys in *. rewrite fmap_app in Hnd. cbn in Hnd.
  apply NoDup_app in Hnd as (_ & Hdisj & _).
  intros Hk. apply (Hdisj k Hk). apply list_elem_of_here.
Qed.

Lemma lookupSlot_Some_elem (vs : list (string * ValueEventEmitter)) (k : string)
    (e : ValueEventEmitter) :
  lookupSlot k vs = Some e -> (k, e) ∈ vs.
Proof.
  induction vs as [|[k' e'] vs IH]; cbn; [done|].
  destruct (String.eqb_spec k' k) as [->|_].
  - intros [= ->]. apply list_elem_of_here.
  - intros H. apply list_elem_of_further. by apply IH.
Qed.

Lemma slot_run (key : string) (e : ValueEventEmitter) (w : World) :
  lookupSlot key (values w) = Some e -> slot key w = (Normal e, w).
Proof. intros H. unfold slot. by rewrite H. Qed.

Lemma subscribe_run (key : string) (cb : Callback) (e : ValueEventEmitter) (w : World) :
  lookupSlot key (values w) = Some e ->
  ValueEventEmitter.subscribe key cb w =
  (Normal tt, setValues (alterSlot (ValueEventEmitter.append cb) key (values w)) w).
Proof.
  intros H. unfold ValueEventEmitter.subscribe.
  by rewrite run_bind, (slot_run key e).
Qed.

Lemma emitter_dispose_run (key : string) (e : ValueEventEmitter) (w : World) :
  lookupSlot key (values w) = Some e ->
  ValueEventEmitter.dispose key w =
  (Normal tt, setValues (alterSlot ValueEventEmitter.clear key (values w)) w).
Proof.
  intros H. unfold ValueEventEmitter.dispose.
  by rewrite run_bind, (slot_run key e).
Qed.

Lemma emit_run (key : string) (next : option JValue) (e : ValueEventEmitter) (w : World) :
  wellFormed w ->
  lookupSlot key (values w) = Some e ->
  let v := default (currentValue e) next in
  ValueEventEmitter.emit key next w =
  (Normal tt,
   setTrace (trace w ++ loggedAt (currentPanel w)
                          (subscribers e ≫= delivery (currentPanel w) (heap w) v))
     (setValues (alterSlot (ValueEventEmitter.store v) key (values w)) w)).
Proof.
  intros Hwf H v. unfold ValueEventEmitter.emit.
  rewrite run_bind, (slot_run key e) by done.
  rewrite run_bind. cbn [modify]. fold v.
  rewrite notify_run by by apply wellFormed_setValues.
  by destruct w.
Qed.

(** A loop over the keys of the record whose body mutates the emitter under
    its key: every emitter is mutated once. *)
Lemma forEach_alterSlot (f : string -> ValueEventEmitter -> ValueEventEmitter)
    (body : string -> Js unit) :
  (forall k e w, lookupSlot k (values w) = Some e ->
     body k w = (Normal tt, setValues (alterSlot (f k) k (values w)) w)) ->
  forall (todo seen : list (string * ValueEventEmitter)) (w : World),
    values w = seen ++ todo ->
    NoDup (keys (seen ++ todo)) ->
    forEach body (keys todo) w = (Normal tt, setValues (seen ++ mapSlots f todo) w).
Proof.
  intros Hbody. induction todo as [|[k e] todo IH]; intros seen w Hvs Hnd.
  - cbn. rewrite <- Hvs. by destruct w.
  - assert (Hfresh : k ∉ keys seen).
    { unfold keys in *. rewrite fmap_app in Hnd. cbn in Hnd.
      apply NoDup_app in Hnd as (_ & Hdisj & _).
      intros Hk. apply (Hdisj k Hk). apply list_elem_of_here. }
    cbn [keys fmap list_fmap fst forEach]. rewrite run_bind.
    rewrite (Hbody k e) by (rewrite Hvs; by apply lookupSlot_app_fresh).
    rewrite Hvs, alterSlot_app_fresh by done.
    change (forEach body (todo.*1)) with (forEach body (keys todo)).
    rewrite (IH (seen ++ [(k, f k e)])).
    + destruct w; cbn. by rewrite <- app_assoc.
    + destruct w; cbn. by rewrite <- app_assoc.
    + unfold keys in *. rewrite <- app_assoc. cbn.
      rewrite !fmap_app in *. cbn in *. exact Hnd.
Qed.

Lemma activate_run (w : World) :
  NoDup (keys (values w)) ->
  SimplePqTestResultViewBroker.activate w =
  (Normal tt,
   setValues (mapSlots (fun k => ValueEventEmitter.append (Relay k)) (values w)) w).
Proof.
  intros Hnd. unfold SimplePqTestResultViewBroker.activate.
  rewrite run_bind; cbn [get].
  apply (forEach_alterSlot (fun k => ValueEventEmitter.append (Relay k))
           (fun k => ValueEventEmitter.subscribe k (Relay k))
           (fun k e w' H => subscribe_run k (Relay k) e w' H) (values w) [] w);
    done.
Qed.

Lemma deActivate_run (w : World) :
  NoDup (keys (values w)) ->
  SimplePqTestResultViewBroker.deActivate w =
  (Normal tt, setValues (mapSlots (fun _ => ValueEventEmitter.clear) (values w)) w).
Proof.
  intros Hnd. unfold SimplePqTestResultViewBroker.deActivate.
  rewrite run_bind; cbn [get].
  apply (forEach_alterSlot (fun _ => ValueEventEmitter.clear) ValueEventEmitter.dispose
           emitter_dispose_run (values w) [] w); done.
Qed.

Lemma alterSlot_same (f : ValueEventEmitter -> ValueEventEmitter) (k : string)
    (e : ValueEventEmitter) (vs : list (string * ValueEventEmitter)) :
  lookupSlot k vs = Some e -> f e = e -> alterSlot f k vs = vs.
Proof.
  intros Hk Hf. induction vs as [|[k' e'] vs IH]; cbn in *; [done|].
  destruct (String.eqb k' k).
  - injection Hk as ->. by rewrite Hf.
  - by rewrite IH.
Qed.

Lemma reemit_run (key : string) (e : ValueEventEmitter) (w : World) :
  wellFormed w ->
  lookupSlot key (values w) = Some e ->
  ValueEventEmitter.emit key None w =
  (Normal tt,
   setTrace (trace w ++ loggedAt (currentPanel w)
                          (redelivery (currentPanel w) (heap w) (key, e))) w).
Proof.
  intros Hwf H. rewrite (emit_run key None e) by done. cbn [default].
  rewrite (alterSlot_same _ key e) by (done || by destruct e).
  by destruct w.
Qed.

Lemma emitAll_loop (l : list (string * ValueEventEmitter)) :
  forall w : World,
    wellFormed w ->
    (forall s, s ∈ l -> lookupSlot s.1 (values w) = Some s.2) ->
    forEach (fun oneProperty => ValueEventEmitter.emit oneProperty None) (keys l) w =
    (Normal tt,
     setTrace (trace w ++ loggedAt (currentPanel w)
                            (l ≫= redelivery (currentPanel w) (heap w))) w).
Proof.
  induction l as [|[k e] l IH]; intros w Hwf Hl.
  - cbn. destruct w; cbn. by rewrite app_nil_r.
  - cbn [keys fmap list_fmap fst forEach]. rewrite run_bind.
    rewrite (reemit_run k e) by (done || apply (Hl (k, e)), list_elem_of_here).
    change (forEach ?b (l.*1)) with (forEach b (keys l)).
    rewrite IH.
    + destruct w; cbn [setTrace trace currentPanel heap values nextHandle].
      by rewrite bind_cons, loggedAt_app, <- app_assoc.
    + by apply wellFormed_setTrace.
    + intros s Hs. destruct w; cbn. apply (Hl s). by apply list_elem_of_further.
Qed.

Lemma emitAll_run (w : World) :
  wellFormed w ->
  NoDup (keys (values w)) ->
  SimplePqTestResultViewBroker.emitAll w =
  (Normal tt,
   setTrace (trace w ++ loggedAt (currentPanel w)
                          (values w ≫= redelivery (currentPanel w) (heap w))) w).
Proof.
  intros Hwf Hnd. unfold SimplePqTestResultViewBroker.emitAll.
  rewrite run_bind; cbn [get].
  apply emitAll_loop; [done|].
  intros [k e] Hs. by apply lookupSlot_elem.
Qed.

Lemma lookupSlot_alterSlot_eq (f : ValueEventEmitter -> ValueEventEmitter) (k : string)
    (vs : list (string * ValueEventEmitter)) :
  lookupSlot k (alterSlot f k vs) = f <$> lookupSlot k vs.
Proof.
  induction vs as [|[k' e'] vs IH]; cbn; [done|].
  destruct (String.eqb k' k) eqn:E; cbn; by rewrite E.
Qed.

Lemma lookupSlot_alterSlot_ne (f : ValueEventEmitter -> ValueEventEmitter) (k k' : string)
    (vs : list (string * ValueEventEmitter)) :
  k <> k' -> lookupSlot k' (alterSlot f k vs) = lookupSlot k' vs.
Proof.
  intros Hne. induction vs as [|[k0 e0] vs IH]; cbn; [done|].
  destruct (String.eqb_spec k0 k) as [->|Hk]; cbn.
  - by destruct (String.eqb_spec k k').
  - by rewrite IH.
Qed.

Lemma keys_alterSlot (f : ValueEventEmitter -> ValueEventEmitter) (k : string)
    (vs : list (string * ValueEventEmitter)) :
  keys (alterSlot f k vs) = keys vs.
Proof.
  unfold keys. induction vs as [|[k' e'] vs IH]; cbn; [done|].
  destruct (String.eqb k' k); cbn; by rewrite ?IH.
Qed.

Lemma alterSlot_const (f : ValueEventEmitter -> ValueEventEmitter) (k : string)
    (e : ValueEventEmitter) (vs : list (string * ValueEventEmitter)) :
  lookupSlot k vs = Some e -> alterSlot f k vs = alterSlot (fun _ => f e) k vs.
Proof.
  induction vs as [|[k' e'] vs IH]; cbn; [done|].
  destruct (String.eqb k' k).
  - by intros [= ->].
  - intros H. by rewrite IH.
Qed.

Lemma alterSlot_twice (f g : ValueEventEmitter -> ValueEventEmitter) (k : string)
    (vs : list (string * ValueEventEmitter)) :
  alterSlot g k (alterSlot f k vs) = alterSlot (fun e => g (f e)) k vs.
Proof.
  induction vs as [|[k' e'] vs IH]; cbn; [done|].
  destruct (String.eqb k' k) eqn:E; cbn; rewrite E; by rewrite ?IH.
Qed.

Lemma lookupSlot_mapSlots (f : string -> ValueEventEmitter -> ValueEventEmitter)
    (k : string) (vs : list (string * ValueEventEmitter)) :
  lookupSlot k (mapSlots f vs) = f k <$> lookupSlot k vs.
Proof.
  induction vs as [|[k' e'] vs IH]; cbn; [done|].
  destruct (String.eqb_spec k' k) as [->|_]; [done|]. apply IH.
Qed.

Lemma keys_mapSlots (f : string -> ValueEventEmitter -> ValueEventEmitter)
    (vs : list (string * ValueEventEmitter)) :
  keys (mapSlots f vs) = keys vs.
Proof.
  unfold keys, mapSlots. rewrite <- list_fmap_compose. by apply list_fmap_ext.
Qed.

(** After [subscribe] was called for each of [cbs] in turn, the slot holds
    them behind the subscribers it had. *)
Lemma subscribe_each_run (key : string) (cbs : list Callback) :
  forall (e : ValueEventEmitter) (w : World),
    lookupSlot key (values w) = Some e ->
    forEach (ValueEventEmitter.subscribe key) cbs w =
    (Normal tt,
     setValues (alterSlot (fun _ => {| currentValue := currentValue e;
                                       subscribers := subscribers e ++ cbs |})
                  key (values w)) w).
Proof.
  induction cbs as [|cb cbs IH]; intros e w He.
  - cbn. rewrite app_nil_r.
    rewrite (alterSlot_same _ key e) by (done || by destruct e). by destruct w.
  - cbn [forEach]. rewrite run_bind, (subscribe_run key cb e) by done.
    rewrite (IH (ValueEventEmitter.append cb e)).
    + destruct w; cbn [setValues values currentPanel heap nextHandle trace].
      rewrite alterSlot_twice. cbn. by rewrite <- app_assoc.
    + destruct w; cbn. rewrite lookupSlot_alterSlot_eq. cbn in He. by rewrite He.
Qed.

(** An emit on a slot without subscribers only stores. *)
Lemma emit_quiet (key : string) (next : option JValue) (e : ValueEventEmitter) (w : World) :
  lookupSlot key (values w) = Some e ->
  subscribers e = [] ->
  ValueEventEmitter.emit key next w =
  (Normal tt,
   setValues (alterSlot (ValueEventEmitter.store (default (currentValue e) next)) key
                (values w)) w).
Proof.
  intros He Hsubs. unfold ValueEventEmitter.emit.
  rewrite run_bind, (slot_run key e) by done.
  rewrite run_bind. cbn [modify]. by rewrite Hsubs.
Qed.

Lemma effect_loggedAt (cur : option Ref) (es : list Effect) :
  effect <$> loggedAt cur es = es.
Proof.
  unfold loggedAt. induction es as [|x es IH]; [done|]. cbn. by rewrite IH.
Qed.

Lemma consumers_delivery (cur : option Ref) (hp : list PanelInstance) (v : JValue)
    (cs : list nat) :
  (Consumer <$> cs) ≫= delivery cur hp v = (fun c => Invoked c v) <$> cs.
Proof.
  induction cs as [|c cs IH]; [done|].
  rewrite fmap_cons, bind_cons, IH. reflexivity.
Qed.

(** C5. On any slot, after [subscribe] was called for each of [cbs] in
    turn, one [emit] of [v] is: store [v] in the slot, then call the
    subscribers the slot had followed by [cbs], each once, in that order,
    with [v].  It returns normally, the slot holds [v] afterwards, and the
    log grows by what these calls send, in subscription order; when all the
    subscribers are consumers, by exactly one call with [v] of each. *)
Theorem emit_notifies_in_subscription_order (key : string) (e : ValueEventEmitter)
    (cbs : list Callback) (v : JValue) (w : World) :
  wellFormed w ->
  lookupSlot key (values w) = Some e ->
  let all := subscribers e ++ cbs in
  let updated := {| currentValue := v; subscribers := all |} in
  let w1 := exec (forEach (ValueEventEmitter.subscribe key) cbs) w in
  let w2 := exec (ValueEventEmitter.emit key (Some v)) w1 in
  lookupSlot key (values w1) = Some {| currentValue := currentValue e; subscribers := all |}
  /\ ValueEventEmitter.emit key (Some v) w1 =
       forEach (fun cb => invoke cb v) all
         (setValues (alterSlot (fun _ => updated) key (values w)) w)
  /\ outcome (ValueEventEmitter.emit key (Some v)) w1 = Normal tt
  /\ lookupSlot key (values w2) = Some updated
  /\ trace w2 = trace w ++ loggedAt (currentPanel w)
                             (all ≫= delivery (currentPanel w) (heap w) v)
  /\ (forall cs, all = Consumer <$> cs ->
        effects w2 = effects w ++ ((fun c => Invoked c v) <$> cs)).
Proof.
  intros Hwf He all updated w1 w2.
  assert (Hw1 : w1 = setValues (alterSlot (fun _ => {| currentValue := currentValue e;
                                                       subscribers := all |})
                                  key (values w)) w).
  { unfold w1, exec. by rewrite (subscribe_each_run key cbs e). }
  assert (Hl1 : lookupSlot key (values w1) =
                Some {| currentValue := currentValue e; subscribers := all |}).
  { rewrite Hw1. destruct w; cbn in *. by rewrite lookupSlot_alterSlot_eq, He. }
  assert (Hwf1 : wellFormed w1) by (rewrite Hw1; by apply wellFormed_setValues).
  assert (Hstored : setValues (alterSlot (ValueEventEmitter.store v) key (values w1)) w1 =
                    setValues (alterSlot (fun _ => updated) key (values w)) w).
  { rewrite Hw1. destruct w; cbn. by rewrite alterSlot_twice. }
  pose proof (emit_run key (Some v) _ w1 Hwf1 Hl1) as Hrun.
  cbv zeta in Hrun. unfold default in Hrun.
  cbn [from_option id currentValue subscribers] in Hrun.
  rewrite Hstored in Hrun.
  assert (Hcur : currentPanel w1 = currentPanel w /\ heap w1 = heap w /\ trace w1 = trace w).
  { rewrite Hw1. by destruct w. }
  destruct Hcur as (Hcur & Hheap & Htrace).
  rewrite Hcur, Hheap, Htrace in Hrun.
  assert (Htr2 : trace w2 = trace w ++ loggedAt (currentPanel w)
                                        (all ≫= delivery (currentPanel w) (heap w) v)).
  { unfold w2, exec. rewrite Hrun. by destruct w. }
  split; [exact Hl1|]. split; [|split; [|split; [|split]]].
  - rewrite Hrun. rewrite notify_run by by apply wellFormed_setValues.
    by destruct w.
  - unfold outcome. by rewrite Hrun.
  - assert (Hv2 : values w2 = alterSlot (fun _ => updated) key (values w)).
    { unfold w2, exec. rewrite Hrun. by destruct w. }
    by rewrite Hv2, lookupSlot_alterSlot_eq, He.
  - exact Htr2.
  - intros cs Hcs. unfold effects. rewrite Htr2, fmap_app. f_equal.
    by rewrite Hcs, consumers_delivery, effect_loggedAt.
Qed.

Lemma emit_notifies_in_subscription_order_witness :
  let key := "latestPqTestResult" in
  let v := JObject [("ok", JBool true)] in
  let w1 := exec (forEach (ValueEventEmitter.subscribe key) [Consumer 1; Consumer 2])
              initialWorld in
  wellFormed initialWorld
  /\ lookupSlot key (values initialWorld) = Some (ValueEventEmitter.new JUndefined)
  /\ effects (exec (ValueEventEmitter.emit key (Some v)) w1) =
       effects initialWorld ++ ((fun c => Invoked c v) <$> [1; 2]).
Proof.
  intros key v w1.
  assert (Hwf : wellFormed initialWorld) by (intros cur Hcur; discriminate Hcur).
  split; [exact Hwf|]. split; [reflexivity|].
  destruct (emit_notifies_in_subscription_order key (ValueEventEmitter.new JUndefined)
              [Consumer 1; Consumer 2] v initialWorld Hwf eq_refl)
    as (_ & _ & _ & _ & _ & Hcs).
  apply (Hcs [1; 2]). reflexivity.
Defined.

Lemma redeliver_loop (l : list (string * ValueEventEmitter)) :
  forall w : World,
    wellFormed w ->
    forEach (fun s => forEach (fun cb => invoke cb (currentValue s.2)) (subscribers s.2)) l w =
    (Normal tt,
     setTrace (trace w ++ loggedAt (currentPanel w)
                            (l ≫= redelivery (currentPanel w) (heap w))) w).
Proof.
  induction l as [|s l IH]; intros w Hwf.
  - cbn. destruct w; cbn. by rewrite app_nil_r.
  - cbn [forEach]. rewrite run_bind, notify_run by done.
    rewrite IH by by apply wellFormed_setTrace.
    destruct w; cbn [setTrace trace currentPanel heap values nextHandle].
    by rewrite bind_cons, loggedAt_app, <- app_assoc.
Qed.

(** C6. [emitAll()] is, for every slot of the record in turn, one call of
    each subscriber of that slot with the value the slot holds; it stores
    nothing new and returns normally.  It does not compare with what was
    delivered before: a second [emitAll()] delivers the same values to the
    same subscribers once more. *)
Theorem emitAll_redelivers (w : World) :
  wellFormed w ->
  NoDup (keys (values w)) ->
  let snapshot := loggedAt (currentPanel w)
                    (values w ≫= redelivery (currentPanel w) (heap w)) in
  let w1 := exec SimplePqTestResultViewBroker.emitAll w in
  let w2 := exec SimplePqTestResultViewBroker.emitAll w1 in
  SimplePqTestResultViewBroker.emitAll w =
    forEach (fun s => forEach (fun cb => invoke cb (currentValue s.2)) (subscribers s.2))
      (values w) w
  /\ outcome SimplePqTestResultViewBroker.emitAll w = Normal tt
  /\ values w1 = values w
  /\ trace w1 = trace w ++ snapshot
  /\ values w2 = values w
  /\ trace w2 = trace w ++ snapshot ++ snapshot.
Proof.
  intros Hwf Hnd snapshot w1 w2.
  pose proof (emitAll_run w Hwf Hnd) as Hrun. fold snapshot in Hrun.
  assert (Hw1 : w1 = setTrace (trace w ++ snapshot) w).
  { unfold w1, exec. by rewrite Hrun. }
  assert (Hrun1 : SimplePqTestResultViewBroker.emitAll w1 =
                  (Normal tt, setTrace (trace w1 ++ snapshot) w1)).
  { rewrite (emitAll_run w1).
    - rewrite Hw1. by destruct w.
    - rewrite Hw1. by apply wellFormed_setTrace.
    - rewrite Hw1. by destruct w. }
  split; [|split; [|split; [|split; [|split]]]].
  - rewrite Hrun. by rewrite redeliver_loop.
  - unfold outcome. by rewrite Hrun.
  - rewrite Hw1. by destruct w.
  - rewrite Hw1. by destruct w.
  - unfold w2, exec. rewrite Hrun1, Hw1. by destruct w.
  - unfold w2, exec. rewrite Hrun1, Hw1. destruct w; cbn. by rewrite <- app_assoc.
Qed.

Lemma emitAll_redelivers_witness :
  let v := JObject [("ok", JBool true)] in
  let w := exec (ValueEventEmitter.subscribe "latestPqTestResult" (Consumer 5);;
                 ValueEventEmitter.emit "latestPqTestResult" (Some v)) initialWorld in
  wellFormed w
  /\ NoDup (keys (values w))
  /\ trace (exec SimplePqTestResultViewBroker.emitAll
              (exec SimplePqTestResultViewBroker.emitAll w)) =
       trace w ++ loggedAt None [Invoked 5 v] ++ loggedAt None [Invoked 5 v].
Proof.
  intros v w.
  assert (Hwf : wellFormed w) by (intros cur Hcur; discriminate Hcur).
  assert (Hnd : NoDup (keys (values w))).
  { apply NoDup_cons. split; [apply not_elem_of_nil | apply NoDup_nil_2]. }
  split; [exact Hwf|]. split; [exact Hnd|].
  destruct (emitAll_redelivers w Hwf Hnd) as (_ & _ & _ & _ & _ & Htwice).
  exact Htwice.
Defined.

(** C7. [deActivate()] returns normally and leaves every slot of the record
    with an empty subscriber list, its key and its value kept; an [emit] of
    any value [v] on any slot afterwards returns normally, sends nothing,
    and leaves [v] stored in the slot. *)
Theorem deActivate_then_emit_only_stores (key : string) (e : ValueEventEmitter)
    (v : JValue) (w : World) :
  NoDup (keys (values w)) ->
  lookupSlot key (values w) = Some e ->
  let w1 := exec SimplePqTestResultViewBroker.deActivate w in
  let w2 := exec (ValueEventEmitter.emit key (Some v)) w1 in
  outcome SimplePqTestResultViewBroker.deActivate w = Normal tt
  /\ keys (values w1) = keys (values w)
  /\ (forall k s, lookupSlot k (values w) = Some s ->
        lookupSlot k (values w1) =
        Some {| currentValue := currentValue s; subscribers := [] |})
  /\ trace w1 = trace w
  /\ outcome (ValueEventEmitter.emit key (Some v)) w1 = Normal tt
  /\ trace w2 = trace w
  /\ lookupSlot key (values w2) = Some {| currentValue := v; subscribers := [] |}.
Proof.
  intros Hnd He w1 w2.
  pose proof (deActivate_run w Hnd) as Hrun.
  assert (Hw1 : w1 = setValues (mapSlots (fun _ => ValueEventEmitter.clear) (values w)) w).
  { unfold w1, exec. by rewrite Hrun. }
  assert (Hl1 : forall k s, lookupSlot k (values w) = Some s ->
                  lookupSlot k (values w1) =
                  Some {| currentValue := currentValue s; subscribers := [] |}).
  { intros k s Hs. rewrite Hw1. cbn [values setValues].
    by rewrite lookupSlot_mapSlots, Hs. }
  pose proof (emit_quiet key (Some v) _ w1 (Hl1 key e He) eq_refl) as Hemit.
  unfold default in Hemit. cbn [from_option id currentValue] in Hemit.
  split; [|split; [|split; [|split; [|split; [|split]]]]].
  - unfold outcome. by rewrite Hrun.
  - rewrite Hw1. cbn [values setValues]. apply keys_mapSlots.
  - exact Hl1.
  - rewrite Hw1. by destruct w.
  - unfold outcome. by rewrite Hemit.
  - unfold w2, exec. rewrite Hemit, Hw1. by destruct w.
  - assert (Hv2 : values w2 = alterSlot (ValueEventEmitter.store v) key (values w1)).
    { unfold w2, exec. rewrite Hemit. by destruct w1. }
    by rewrite Hv2, lookupSlot_alterSlot_eq, (Hl1 key e He).
Qed.

Lemma deActivate_then_emit_only_stores_witness :
  let key := "latestPqTestResult" in
  let v := JObject [("ok", JBool true)] in
  let w := exec (SimplePqTestResultViewBroker.activate;;
                 PqTestResultViewPanel.createOrShow ["ext"];;
                 ValueEventEmitter.subscribe key (Consumer 3)) initialWorld in
  let w1 := exec SimplePqTestResultViewBroker.deActivate w in
  let w2 := exec (ValueEventEmitter.emit key (Some v)) w1 in
  lookupSlot key (values w) =
    Some {| currentValue := JUndefined; subscribers := [Relay key; Consumer 3] |}
  /\ trace w2 = trace w
  /\ lookupSlot key (values w2) = Some {| currentValue := v; subscribers := [] |}.
Proof.
  intros key v w w1 w2.
  assert (Hnd : NoDup (keys (values w))).
  { apply NoDup_cons. split; [apply not_elem_of_nil | apply NoDup_nil_2]. }
  assert (He : lookupSlot key (values w) =
               Some {| currentValue := JUndefined;
                       subscribers := [Relay key; Consumer 3] |}) by reflexivity.
  split; [exact He|].
  destruct (deActivate_then_emit_only_stores key _ v w Hnd He)
    as (_ & _ & _ & _ & _ & Htrace & Hstored).
  split; [exact Htrace | exact Hstored].
Defined.

Lemma activate_activated (w : World) :
  NoDup (keys (values w)) ->
  SimplePqTestResultViewBroker.activate w = (Normal tt, activated w).
Proof. apply activate_run. Qed.

Lemma activated_keys (w : World) : keys (values (activated w)) = keys (values w).
Proof. unfold activated. cbn [values setValues]. apply keys_mapSlots. Qed.

Lemma activated_lookup (k : string) (s : ValueEventEmitter) (w : World) :
  lookupSlot k (values w) = Some s ->
  lookupSlot k (values (activated w)) =
  Some {| currentValue := currentValue s; subscribers := subscribers s ++ [Relay k] |}.
Proof.
  intros Hs. unfold activated. cbn [values setValues].
  by rewrite lookupSlot_mapSlots, Hs.
Qed.

Lemma activated_frame (w : World) :
  currentPanel (activated w) = currentPanel w
  /\ heap (activated w) = heap w
  /\ trace (activated w) = trace w
  /\ nextHandle (activated w) = nextHandle w.
Proof. by destruct w. Qed.

Lemma relay_delivery (cur : Ref) (o : PanelInstance) (hp : list PanelInstance)
    (p : string) (v : JValue) :
  hp !! cur = Some o ->
  delivery (Some cur) hp v (Relay p) = [PostMessage (handle (_panel o)) (envelope p v)].
Proof. intros Ho. cbn. by rewrite Ho. Qed.

(** What an [emit] logs, as effects, on a slot found in the record. *)
Lemma emit_effects (key : string) (v : JValue) (s : ValueEventEmitter) (w : World) :
  wellFormed w ->
  lookupSlot key (values w) = Some s ->
  outcome (ValueEventEmitter.emit key (Some v)) w = Normal tt
  /\ effects (exec (ValueEventEmitter.emit key (Some v)) w) =
       effects w ++ (subscribers s ≫= delivery (currentPanel w) (heap w) v).
Proof.
  intros Hwf Hs. pose proof (emit_run key (Some v) s w Hwf Hs) as Hrun.
  cbv zeta in Hrun. unfold default in Hrun. cbn [from_option id] in Hrun.
  unfold outcome, exec, effects. rewrite Hrun. cbn [fst snd].
  split; [done|]. destruct w; cbn [trace setTrace setValues].
  by rewrite fmap_app, effect_loggedAt.
Qed.

(** C8. [activate()] has no guard: each call appends one relay to every
    slot, so after two calls every slot carries the relay twice.  With a
    panel open, one value update on a slot then makes the relay post two
    identical envelopes, where after a single [activate()] it posts one. *)
Theorem activate_twice_duplicates_relay (key : string) (e : ValueEventEmitter)
    (v : JValue) (w : World) (cur : Ref) (o : PanelInstance) :
  NoDup (keys (values w)) ->
  lookupSlot key (values w) = Some e ->
  currentPanel w = Some cur ->
  heap w !! cur = Some o ->
  let activate := SimplePqTestResultViewBroker.activate in
  let update := ValueEventEmitter.emit key (Some v) in
  let post := PostMessage (handle (_panel o)) (envelope key v) in
  let others := subscribers e ≫= delivery (Some cur) (heap w) v in
  (forall k s, lookupSlot k (values w) = Some s ->
     lookupSlot k (values (exec (activate;; activate) w)) =
     Some {| currentValue := currentValue s;
             subscribers := subscribers s ++ [Relay k; Relay k] |})
  /\ outcome (activate;; activate;; update) w = Normal tt
  /\ effects (exec (activate;; update) w) = effects w ++ others ++ [post]
  /\ effects (exec (activate;; activate;; update) w) = effects w ++ others ++ [post; post].
Proof.
  intros Hnd He Hcur Ho activate update post others. subst activate update.
  pose proof (activated_frame w) as (Hc1 & Hh1 & Ht1 & _).
  pose proof (activated_frame (activated w)) as (Hc2 & Hh2 & Ht2 & _).
  assert (Hnd1 : NoDup (keys (values (activated w)))) by by rewrite activated_keys.
  assert (Hwf1 : wellFormed (activated w)).
  { apply (wellFormed_current _ cur o); congruence. }
  assert (Hwf2 : wellFormed (activated (activated w))).
  { apply (wellFormed_current _ cur o); congruence. }
  assert (Hl1 := activated_lookup key e w He).
  assert (Hl2 := activated_lookup key _ (activated w) Hl1).
  cbn [currentValue subscribers] in Hl2.
  destruct (emit_effects key v _ (activated w) Hwf1 Hl1) as (Ho1 & He1).
  destruct (emit_effects key v _ (activated (activated w)) Hwf2 Hl2) as (Ho2 & He2).
  cbn [subscribers] in He1, He2.
  assert (Hrelay : delivery (Some cur) (heap w) v (Relay key) = [post])
    by by apply relay_delivery.
  assert (D1 : (subscribers e ++ [Relay key]) ≫= delivery (Some cur) (heap w) v =
               others ++ [post]).
  { by rewrite bind_app, bind_singleton, Hrelay. }
  assert (D2 : ((subscribers e ++ [Relay key]) ++ [Relay key]) ≫=
                 delivery (Some cur) (heap w) v = others ++ [post; post]).
  { by rewrite bind_app, bind_singleton, Hrelay, D1, <- app_assoc. }
  unfold effects in He1, He2.
  rewrite Hc1, Hh1, Ht1, Hcur, D1 in He1.
  rewrite Hc2, Hc1, Hh2, Hh1, Ht2, Ht1, Hcur, D2 in He2.
  split; [|split; [|split]].
  - intros k s Hs. unfold exec. rewrite run_bind, activate_activated by done.
    rewrite activate_activated by done. cbn [snd].
    rewrite (activated_lookup k _ (activated w) (activated_lookup k s w Hs)).
    cbn [currentValue subscribers]. by rewrite <- app_assoc.
  - unfold outcome. rewrite run_bind, activate_activated by done.
    rewrite run_bind, activate_activated by done. exact Ho2.
  - unfold exec. rewrite run_bind, activate_activated by done.
    unfold effects. exact He1.
  - unfold exec. rewrite run_bind, activate_activated by done.
    rewrite run_bind, activate_activated by done.
    unfold effects. exact He2.
Qed.

Lemma activate_twice_duplicates_relay_witness :
  let key := "latestPqTestResult" in
  let v := JObject [("ok", JBool true)] in
  let w := exec (PqTestResultViewPanel.createOrShow ["ext"]) initialWorld in
  let o := constructed (hostPanel 0) ["ext"] in
  let activate := SimplePqTestResultViewBroker.activate in
  let update := ValueEventEmitter.emit key (Some v) in
  NoDup (keys (values w))
  /\ lookupSlot key (values w) = Some (ValueEventEmitter.new JUndefined)
  /\ currentPanel w = Some 0
  /\ heap w !! 0 = Some o
  /\ effects (exec (activate;; update) w) =
       effects w ++ [] ++ [PostMessage 0 (envelope key v)]
  /\ effects (exec (activate;; activate;; update) w) =
       effects w ++ [] ++ [PostMessage 0 (envelope key v); PostMessage 0 (envelope key v)].
Proof.
  intros key v w o activate update.
  assert (Hnd : NoDup (keys (values w))).
  { apply NoDup_cons. split; [apply not_elem_of_nil | apply NoDup_nil_2]. }
  assert (He : lookupSlot key (values w) = Some (ValueEventEmitter.new JUndefined))
    by reflexivity.
  assert (Hcur : currentPanel w = Some 0) by reflexivity.
  assert (Ho : heap w !! 0 = Some o) by reflexivity.
  repeat (split; [assumption|]).
  destruct (activate_twice_duplicates_relay key _ v w 0 o Hnd He Hcur Ho)
    as (_ & _ & Honce & Htwice).
  split; [exact Honce | exact Htwice].
Defined.

(** ** The relay and the outbound envelope *)

Lemma relay_posts_once (p : string) (v : JValue) (w : World) (cur : Ref) (o : PanelInstance) :
  currentPanel w = Some cur ->
  heap w !! cur = Some o ->
  invoke (Relay p) v w =
  (Normal tt,
   setTrace (trace w ++ [{| effect := PostMessage (handle (_panel o)) (envelope p v);
                            singleton := Some cur |}]) w).
Proof.
  intros Hcur Ho. rewrite invoke_run by by apply (wellFormed_current w cur o).
  by rewrite Hcur, (relay_delivery cur o).
Qed.

Lemma relay_drops (p : string) (v : JValue) (w : World) :
  currentPanel w = None -> invoke (Relay p) v w = (Normal tt, w).
Proof.
  intros Hcur. cbn [invoke]. rewrite run_bind. cbn [get]. by rewrite Hcur.
Qed.

(** C4 (amended). With a panel open and the broker activated on a slot
    that had no subscriber, subscribing a consumer C to the slot and then
    emitting [v] on it calls C exactly once, with the value [v] itself; the
    envelope [{type: "OnOneValueUpdated", payload: {property, value: v}}]
    goes, once, to the surface of the panel, posted by the relay.  Each call
    of the relay while a panel is open posts exactly one such envelope. *)
Theorem consumer_gets_value_relay_posts_envelope (key : string) (e : ValueEventEmitter)
    (c : nat) (v : JValue) (w : World) (cur : Ref) (o : PanelInstance) :
  NoDup (keys (values w)) ->
  lookupSlot key (values w) = Some e ->
  subscribers e = [] ->
  currentPanel w = Some cur ->
  heap w !! cur = Some o ->
  let scenario := SimplePqTestResultViewBroker.activate;;
                  ValueEventEmitter.subscribe key (Consumer c);;
                  ValueEventEmitter.emit key (Some v) in
  let w' := exec scenario w in
  let surface := handle (_panel o) in
  outcome scenario w = Normal tt
  /\ trace w' = trace w ++ loggedAt (Some cur)
                            [PostMessage surface (envelope key v); Invoked c v]
  /\ invocations c (trace w') = invocations c (trace w) ++ [v]
  /\ posted (trace w') = posted (trace w) ++ [(surface, envelope key v)]
  /\ (forall p x w0, currentPanel w0 = Some cur -> heap w0 !! cur = Some o ->
        invoke (Relay p) x w0 =
        (Normal tt,
         setTrace (trace w0 ++ loggedAt (Some cur) [PostMessage surface (envelope p x)]) w0)).
Proof.
  intros Hnd He Hsubs Hcur Ho scenario w' surface.
  pose proof (activated_frame w) as (Hc1 & Hh1 & Ht1 & _).
  assert (Hl1 := activated_lookup key e w He). rewrite Hsubs in Hl1. cbn [app] in Hl1.
  set (w2 := setValues (alterSlot (ValueEventEmitter.append (Consumer c)) key
                          (values (activated w))) (activated w)).
  assert (Hl2 : lookupSlot key (values w2) =
                Some {| currentValue := currentValue e;
                        subscribers := [Relay key; Consumer c] |}).
  { unfold w2. cbn [values setValues]. by rewrite lookupSlot_alterSlot_eq, Hl1. }
  assert (Hf2 : currentPanel w2 = Some cur /\ heap w2 = heap w /\ trace w2 = trace w).
  { unfold w2. cbn [currentPanel heap trace setValues]. by rewrite Hc1, Hh1, Ht1. }
  destruct Hf2 as (Hc2 & Hh2 & Ht2).
  assert (Hwf2 : wellFormed w2) by (apply (wellFormed_current _ cur o); congruence).
  pose proof (emit_run key (Some v) _ w2 Hwf2 Hl2) as Hemit.
  cbv zeta in Hemit. unfold default in Hemit.
  cbn [from_option id currentValue subscribers] in Hemit.
  rewrite Hc2, Hh2, Ht2 in Hemit.
  rewrite bind_cons, bind_singleton, (relay_delivery cur o) in Hemit by done.
  cbn [delivery app] in Hemit.
  assert (Hrun : scenario w =
                 (Normal tt,
                  setTrace (trace w ++ loggedAt (Some cur)
                              [PostMessage surface (envelope key v); Invoked c v])
                    (setValues (alterSlot (ValueEventEmitter.store v) key (values w2)) w2))).
  { unfold scenario. rewrite run_bind, activate_activated by done.
    rewrite run_bind, (subscribe_run key (Consumer c) _ _ Hl1). exact Hemit. }
  assert (Htr : trace w' = trace w ++ loggedAt (Some cur)
                             [PostMessage surface (envelope key v); Invoked c v]).
  { unfold w', exec. by rewrite Hrun. }
  split; [|split; [|split; [|split]]].
  - unfold outcome. by rewrite Hrun.
  - exact Htr.
  - rewrite Htr, invocations_app. f_equal. cbn. by rewrite Nat.eqb_refl.
  - by rewrite Htr, posted_app.
  - intros p x w0 Hc0 Ho0. by apply relay_posts_once.
Qed.

Lemma consumer_gets_value_relay_posts_envelope_witness :
  let key := "latestPqTestResult" in
  let v := JObject [("ok", JBool true)] in
  let w := exec (PqTestResultViewPanel.createOrShow ["ext"]) initialWorld in
  let o := constructed (hostPanel 0) ["ext"] in
  let scenario := SimplePqTestResultViewBroker.activate;;
                  ValueEventEmitter.subscribe key (Consumer 0);;
                  ValueEventEmitter.emit key (Some v) in
  NoDup (keys (values w))
  /\ lookupSlot key (values w) = Some (ValueEventEmitter.new JUndefined)
  /\ currentPanel w = Some 0
  /\ heap w !! 0 = Some o
  /\ invocations 0 (trace (exec scenario w)) = invocations 0 (trace w) ++ [v]
  /\ posted (trace (exec scenario w)) = posted (trace w) ++ [(0, envelope key v)].
Proof.
  intros key v w o scenario.
  assert (Hnd : NoDup (keys (values w))).
  { apply NoDup_cons. split; [apply not_elem_of_nil | apply NoDup_nil_2]. }
  assert (He : lookupSlot key (values w) = Some (ValueEventEmitter.new JUndefined))
    by reflexivity.
  assert (Hcur : currentPanel w = Some 0) by reflexivity.
  assert (Ho : heap w !! 0 = Some o) by reflexivity.
  repeat (split; [assumption|]).
  destruct (consumer_gets_value_relay_posts_envelope key _ 0 v w 0 o Hnd He eq_refl Hcur Ho)
    as (_ & _ & Hinv & Hpost & _).
  split; [exact Hinv | exact Hpost].
Defined.

(** C4, as stated, fails.  In the scenario of the claim (broker activated,
    panel open, C subscribed to ["latestPqTestResult"], [{ok: true}]
    emitted) C is called once, with [{ok: true}]: the argument is not the
    envelope, which is what the surface of the panel is posted. *)
Lemma consumer_not_called_with_envelope :
  let key := "latestPqTestResult" in
  let v := JObject [("ok", JBool true)] in
  let w := exec (SimplePqTestResultViewBroker.activate;;
                 PqTestResultViewPanel.createOrShow ["ext"];;
                 ValueEventEmitter.subscribe key (Consumer 0);;
                 ValueEventEmitter.emit key (Some v)) initialWorld in
  invocations 0 (trace w) = [v]
  /\ invocations 0 (trace w) <> [envelope key v]
  /\ posted (trace w) = [(0, envelope key v)].
Proof.
  intros key v w.
  assert (Hinv : invocations 0 (trace w) = [v]) by (vm_compute; reflexivity).
  split; [exact Hinv|]. split; [|vm_compute; reflexivity].
  rewrite Hinv. discriminate.
Qed.

Lemma onReady_run (w : World) :
  PqTestResultViewPanel.onDidReceiveMessage onReady w =
  SimplePqTestResultViewBroker.emitAll w.
Proof. reflexivity. Qed.

Lemma last_default_cons {A : Type} (d x : A) (l : list A) :
  default x (last l) = default d (last (x :: l)).
Proof.
  destruct l as [|y l]; [done|].
  change (last (x :: y :: l)) with (last (y :: l)).
  destruct (last (y :: l)) eqn:E; [done|].
  by apply last_None in E.
Qed.

(** Updates emitted while there is no panel, on a slot that carries only
    its relay: each is stored over the previous one, nothing else changes. *)
Lemma emit_each_dropped (key : string) (updates : list JValue) :
  forall (e : ValueEventEmitter) (w : World),
    currentPanel w = None ->
    lookupSlot key (values w) = Some e ->
    subscribers e = [Relay key] ->
    forEach (fun x => ValueEventEmitter.emit key (Some x)) updates w =
    (Normal tt,
     setValues (alterSlot (fun _ => {| currentValue := default (currentValue e) (last updates);
                                       subscribers := [Relay key] |})
                  key (values w)) w).
Proof.
  induction updates as [|x updates IH]; intros e w Hcur He Hsubs.
  - cbn. rewrite (alterSlot_same _ key e);
      [by destruct w | done | destruct e; cbn in *; by subst].
  - cbn [forEach]. rewrite run_bind.
    rewrite (emit_run key (Some x) e) by (done || by apply wellFormed_absent).
    unfold default at 1. cbn [from_option id]. rewrite Hcur, Hsubs.
    cbn [mbind list_bind delivery app loggedAt fmap list_fmap].
    set (w1 := setTrace (trace w ++ []) _).
    assert (Hw1 : w1 = setValues (alterSlot (ValueEventEmitter.store x) key (values w)) w).
    { unfold w1. destruct w; cbn. by rewrite app_nil_r. }
    rewrite Hw1.
    rewrite (IH (ValueEventEmitter.store x e)).
    + cbn [values setValues currentValue ValueEventEmitter.store].
      rewrite alterSlot_twice, <- last_default_cons. by destruct w.
    + by destruct w.
    + cbn [values setValues]. by rewrite lookupSlot_alterSlot_eq, He.
    + exact Hsubs.
Qed.

Lemma relayOnly_alterSlot (key : string) (v : JValue)
    (vs : list (string * ValueEventEmitter)) :
  relayOnly vs ->
  relayOnly (alterSlot (fun _ => {| currentValue := v; subscribers := [Relay key] |}) key vs).
Proof.
  unfold relayOnly. induction 1 as [|[k e] vs Hs Hvs IH]; cbn; [constructor|].
  destruct (String.eqb_spec k key) as [->|_].
  - constructor; [reflexivity | exact Hvs].
  - constructor; [exact Hs | exact IH].
Qed.

Lemma posted_snapshot (cur : Ref) (o : PanelInstance) (hp : list PanelInstance)
    (vs : list (string * ValueEventEmitter)) :
  hp !! cur = Some o ->
  relayOnly vs ->
  posted (loggedAt (Some cur) (vs ≫= redelivery (Some cur) hp)) =
  (fun s => (handle (_panel o), envelope s.1 (currentValue s.2))) <$> vs.
Proof.
  intros Ho. induction 1 as [|s vs Hs _ IH]; [reflexivity|].
  rewrite bind_cons, loggedAt_app, posted_app, IH, fmap_cons.
  unfold redelivery at 1. rewrite Hs, bind_singleton, (relay_delivery cur o) by done.
  reflexivity.
Qed.

Lemma posted_creationLog (extensionUri : Uri) (h : nat) :
  posted (creationLog extensionUri h) = [].
Proof. reflexivity. Qed.

(** C9. While [currentPanel] is empty a call of the relay returns normally
    and changes nothing: no message, no exception, no record of the update.
    Updates emitted meanwhile on a slot that carries only its relay are
    stored one over the other and leave the rest of the world as it was.
    Opening a panel afterwards posts nothing; the surface gets state when it
    reports ["onReady"], and then one envelope per slot with the value the
    slot holds at that time, the last update, not the ones dropped. *)
Theorem relay_drops_updates_without_panel (key : string) (e : ValueEventEmitter)
    (older : list JValue) (latest : JValue) (w : World) (extensionUri : Uri) :
  currentPanel w = None ->
  NoDup (keys (values w)) ->
  relayOnly (values w) ->
  lookupSlot key (values w) = Some e ->
  let updates := forEach (fun x => ValueEventEmitter.emit key (Some x)) (older ++ [latest]) in
  let w1 := exec updates w in
  let w2 := exec (PqTestResultViewPanel.createOrShow extensionUri) w1 in
  let w3 := exec (PqTestResultViewPanel.onDidReceiveMessage onReady) w2 in
  (forall p x w0, currentPanel w0 = None -> invoke (Relay p) x w0 = (Normal tt, w0))
  /\ outcome updates w = Normal tt
  /\ w1 = setValues (alterSlot (fun _ => {| currentValue := latest;
                                            subscribers := [Relay key] |})
                       key (values w)) w
  /\ lookupSlot key (values w1) = Some {| currentValue := latest; subscribers := [Relay key] |}
  /\ posted (trace w2) = posted (trace w)
  /\ values w3 = values w1
  /\ posted (trace w3) =
       posted (trace w) ++
       ((fun s => (nextHandle w, envelope s.1 (currentValue s.2))) <$> values w1).
Proof.
  intros Hcur Hnd Hrelay He updates w1 w2 w3.
  assert (Hsubs : subscribers e = [Relay key]).
  { unfold relayOnly in Hrelay. rewrite Forall_forall in Hrelay.
    apply (Hrelay (key, e)). by apply lookupSlot_Some_elem. }
  pose proof (emit_each_dropped key (older ++ [latest]) e w Hcur He Hsubs) as Hrun.
  rewrite last_snoc in Hrun. cbn [default from_option id] in Hrun.
  unfold default in Hrun. cbn [from_option id] in Hrun.
  set (stored := alterSlot _ key (values w)) in Hrun.
  assert (Hw1 : w1 = setValues stored w).
  { unfold w1, exec, updates. by rewrite Hrun. }
  assert (Hf1 : currentPanel w1 = None /\ heap w1 = heap w /\ trace w1 = trace w
                /\ nextHandle w1 = nextHandle w /\ values w1 = stored).
  { rewrite Hw1. by destruct w. }
  destruct Hf1 as (Hc1 & Hh1 & Ht1 & Hn1 & Hv1).
  assert (Hw2 : w2 = opened extensionUri w1).
  { unfold w2, exec. by rewrite createOrShow_absent. }
  assert (Hwf2 : wellFormed w2).
  { rewrite Hw2. eapply wellFormed_current; [reflexivity | apply lookup_snoc]. }
  assert (Hnd2 : NoDup (keys (values w2))).
  { rewrite Hw2. cbn [values opened]. rewrite Hv1. unfold stored.
    by rewrite keys_alterSlot. }
  assert (Hw3 : w3 = setTrace (trace w2 ++ loggedAt (currentPanel w2)
                                 (values w2 ≫= redelivery (currentPanel w2) (heap w2))) w2).
  { unfold w3, exec. by rewrite onReady_run, emitAll_run. }
  assert (Hp2 : posted (trace w2) = posted (trace w)).
  { rewrite Hw2. cbn [trace opened].
    by rewrite posted_app, posted_creationLog, app_nil_r, Ht1. }
  split; [|split; [|split; [|split; [|split; [|split]]]]].
  - intros p x w0 Hc0. by apply relay_drops.
  - unfold outcome, updates. by rewrite Hrun.
  - exact Hw1.
  - rewrite Hv1. unfold stored. by rewrite lookupSlot_alterSlot_eq, He.
  - exact Hp2.
  - rewrite Hw3, Hw2. by destruct w1.
  - rewrite Hw3. cbn [trace setTrace]. rewrite posted_app, Hp2. f_equal.
    rewrite Hw2. cbn [currentPanel heap values opened].
    rewrite (posted_snapshot _ (constructed (hostPanel (nextHandle w1)) extensionUri)).
    + cbn [handle _panel constructed hostPanel]. by rewrite Hn1.
    + apply lookup_snoc.
    + rewrite Hv1. unfold stored. by apply relayOnly_alterSlot.
Qed.

Lemma relay_drops_updates_without_panel_witness :
  let key := "latestPqTestResult" in
  let w := exec SimplePqTestResultViewBroker.activate initialWorld in
  let updates := forEach (fun x => ValueEventEmitter.emit key (Some x))
                   ([JNumber 1; JNumber 2] ++ [JNumber 3]) in
  let w1 := exec updates w in
  let w2 := exec (PqTestResultViewPanel.createOrShow ["ext"]) w1 in
  let w3 := exec (PqTestResultViewPanel.onDidReceiveMessage onReady) w2 in
  currentPanel w = None
  /\ NoDup (keys (values w))
  /\ relayOnly (values w)
  /\ lookupSlot key (values w) =
       Some {| currentValue := JUndefined; subscribers := [Relay key] |}
  /\ posted (trace w2) = posted (trace w)
  /\ posted (trace w3) =
       posted (trace w) ++
       ((fun s => (nextHandle w, envelope s.1 (currentValue s.2))) <$> values w1).
Proof.
  intros key w updates w1 w2 w3.
  assert (Hcur : currentPanel w = None) by reflexivity.
  assert (Hnd : NoDup (keys (values w))).
  { apply NoDup_cons. split; [apply not_elem_of_nil | apply NoDup_nil_2]. }
  assert (Hrelay : relayOnly (values w)) by (repeat constructor).
  assert (He : lookupSlot key (values w) =
               Some {| currentValue := JUndefined; subscribers := [Relay key] |})
    by reflexivity.
  repeat (split; [assumption|]).
  destruct (relay_drops_updates_without_panel key _ [JNumber 1; JNumber 2] (JNumber 3) w
              ["ext"] Hcur Hnd Hrelay He) as (_ & _ & _ & _ & Hp2 & _ & Hp3).
  split; [exact Hp2 | exact Hp3].
Defined.

Example relay_snapshot_is_latest :
  let key := "latestPqTestResult" in
  let w := exec SimplePqTestResultViewBroker.activate initialWorld in
  let w1 := exec (forEach (fun x => ValueEventEmitter.emit key (Some x))
                    [JNumber 1; JNumber 2; JNumber 3]) w in
  let w2 := exec (PqTestResultViewPanel.createOrShow ["ext"]) w1 in
  posted (trace w2) = []
  /\ posted (trace (exec (PqTestResultViewPanel.onDidReceiveMessage onReady) w2)) =
       [(0, envelope key (JNumber 3))].
Proof. split; vm_compute; reflexivity. Qed.

(** * Further properties of the panel *)

(** ** Revival *)

Lemma revive_run (panel : WebviewPanel) (extensionUri : Uri) (w : World) :
  PqTestResultViewPanel.revive panel extensionUri w =
  (Normal tt,
   {| values := values w;
      currentPanel := Some (length (heap w));
      heap := heap w ++ [constructed panel extensionUri];
      nextHandle := nextHandle w;
      trace := trace w ++ constructionLog panel extensionUri (currentPanel w) |}).
Proof.
  unfold PqTestResultViewPanel.revive. rewrite run_bind, new_run. by destruct w.
Qed.

Lemma constructionLog_quiet (panel : WebviewPanel) (extensionUri : Uri) (cur : option Ref) :
  revealed (constructionLog panel extensionUri cur) = []
  /\ released (constructionLog panel extensionUri cur) = []
  /\ posted (constructionLog panel extensionUri cur) = []
  /\ created (constructionLog panel extensionUri cur) = [].
Proof. by repeat split. Qed.

(** X1. Restoring a surface while a panel is open does not consult the
    singleton: the handler resets the options of the restored surface,
    constructs a second instance around it and makes that one the singleton.
    The instance that was current stays in the heap with its registrations,
    nothing of it is released and its surface is neither revealed nor
    disposed. *)
Theorem deserialize_replaces_singleton (panel : WebviewPanel) (extensionUri : Uri)
    (w : World) (cur : Ref) (o : PanelInstance) :
  currentPanel w = Some cur ->
  heap w !! cur = Some o ->
  let restore := PqTestResultViewPanel.deserializeWebviewPanel panel extensionUri in
  let w' := exec restore w in
  outcome restore w = Normal tt
  /\ currentPanel w' = Some (length (heap w))
  /\ cur <> length (heap w)
  /\ heap w' = heap w ++ [constructed panel extensionUri]
  /\ heap w' !! cur = Some o
  /\ effects w' = effects w ++
       SetOptions (handle panel) (PqTestResultViewPanel.getWebviewOptions extensionUri)
       :: (effect <$> constructionLog panel extensionUri (Some cur))
  /\ released (trace w') = released (trace w)
  /\ revealed (trace w') = revealed (trace w).
Proof.
  intros Hcur Ho restore w'.
  assert (Hrun : restore w =
    (Normal tt,
     {| values := values w;
        currentPanel := Some (length (heap w));
        heap := heap w ++ [constructed panel extensionUri];
        nextHandle := nextHandle w;
        trace := trace w ++
          {| effect := SetOptions (handle panel)
                         (PqTestResultViewPanel.getWebviewOptions extensionUri);
             singleton := Some cur |}
          :: constructionLog panel extensionUri (Some cur) |})).
  { unfold restore, PqTestResultViewPanel.deserializeWebviewPanel.
    rewrite run_bind. cbn [log modify]. rewrite revive_run.
    destruct w; cbn in *. subst. by rewrite <- app_assoc. }
  assert (Hlt : cur < length (heap w)) by by eapply lookup_lt_Some.
  destruct (constructionLog_quiet panel extensionUri (Some cur)) as (Hrev & Hrel & _ & _).
  unfold w', outcome, exec. rewrite Hrun. cbn [fst snd currentPanel heap trace].
  repeat split.
  - lia.
  - by rewrite lookup_app_l.
  - unfold effects. cbn [trace]. by rewrite fmap_app.
  - rewrite released_app.
    change ({| effect := SetOptions ?a ?b; singleton := ?c |} :: ?l)
      with ([{| effect := SetOptions a b; singleton := c |}] ++ l).
    rewrite released_app, Hrel. cbn. by rewrite app_nil_r.
  - rewrite revealed_app.
    change ({| effect := SetOptions ?a ?b; singleton := ?c |} :: ?l)
      with ([{| effect := SetOptions a b; singleton := c |}] ++ l).
    rewrite revealed_app, Hrev. cbn. by rewrite app_nil_r.
Qed.

Lemma deserialize_replaces_singleton_witness :
  let w := exec (PqTestResultViewPanel.createOrShow ["ext"]) initialWorld in
  let w' := exec (PqTestResultViewPanel.deserializeWebviewPanel (hostPanel 9) ["ext"]) w in
  currentPanel w = Some 0
  /\ heap w !! 0 = Some (constructed (hostPanel 0) ["ext"])
  /\ currentPanel w' = Some (length (heap w))
  /\ heap w' !! 0 = Some (constructed (hostPanel 0) ["ext"]).
Proof.
  intros w w'.
  assert (Hcur : currentPanel w = Some 0) by reflexivity.
  assert (Ho : heap w !! 0 = Some (constructed (hostPanel 0) ["ext"])) by reflexivity.
  repeat (split; [assumption|]).
  destruct (deserialize_replaces_singleton (hostPanel 9) ["ext"] w 0 _ Hcur Ho)
    as (_ & Hnew & _ & _ & Hold & _).
  split; [exact Hnew | exact Hold].
Defined.

(** ** Disposal, again *)

Lemma dispose_log_quiet (cur : option Ref) (h : nat) (l : list IDisposable) :
  revealed (loggedAt cur (DisposeSurface h :: (Release <$> l))) = []
  /\ posted (loggedAt cur (DisposeSurface h :: (Release <$> l))) = []
  /\ created (loggedAt cur (DisposeSurface h :: (Release <$> l))) = [].
Proof.
  unfold revealed, posted, created, loggedAt. cbn.
  induction l as [|d l (IH1 & IH2 & IH3)]; [done|]. cbn. by rewrite IH1, IH2, IH3.
Qed.

(** What one [dispose()] of an allocated instance leaves, field by field. *)
Lemma dispose_observed (this : Ref) (o : PanelInstance) (w : World) :
  heap w !! this = Some o ->
  let s := settle (reverse (_disposables o)) in
  let w' := exec (PqTestResultViewPanel.dispose this) w in
  outcome (PqTestResultViewPanel.dispose this) w = completion (raised s)
  /\ currentPanel w' = None
  /\ heap w' = <[this := setDisposables (reverse (remaining s)) o]> (heap w)
  /\ values w' = values w
  /\ nextHandle w' = nextHandle w
  /\ released (trace w') = released (trace w) ++ attempted s
  /\ revealed (trace w') = revealed (trace w)
  /\ posted (trace w') = posted (trace w)
  /\ created (trace w') = created (trace w).
Proof.
  intros Ho s w'. pose proof (dispose_run this w o Ho) as Hrun. cbv zeta in Hrun.
  fold s in Hrun. unfold w', outcome, exec. rewrite Hrun.
  cbn [fst snd currentPanel heap values nextHandle trace].
  destruct (dispose_log_quiet None (handle (_panel o)) (attempted s)) as (Hr & Hp & Hc).
  rewrite released_app, released_dispose_log, revealed_app, Hr, posted_app, Hp,
    created_app, Hc, !app_nil_r.
  by repeat split.
Qed.

(** X2. [dispose()] empties the singleton without asking whether the
    instance being disposed is the current one.  Disposing another instance
    while a panel is open leaves that panel in the heap as it was,
    registrations included, yet unreachable: the relay drops every update
    from then on, and the next show-command constructs a further instance
    instead of revealing the open one. *)
Theorem dispose_of_other_instance_clears_singleton (this cur : Ref)
    (o oc : PanelInstance) (w : World) (extensionUri : Uri) :
  this <> cur ->
  heap w !! this = Some o ->
  heap w !! cur = Some oc ->
  currentPanel w = Some cur ->
  let w' := exec (PqTestResultViewPanel.dispose this) w in
  let w'' := exec (PqTestResultViewPanel.createOrShow extensionUri) w' in
  currentPanel w' = None
  /\ heap w' !! cur = Some oc
  /\ (forall p v, invoke (Relay p) v w' = (Normal tt, w'))
  /\ currentPanel w'' = Some (length (heap w))
  /\ length (heap w'') = S (length (heap w))
  /\ heap w'' !! cur = Some oc
  /\ revealed (trace w'') = revealed (trace w).
Proof.
  intros Hne Ho Hoc Hcur w' w''.
  destruct (dispose_observed this o w Ho) as (_ & Hc' & Hh' & _ & _ & _ & Hrev & _).
  fold w' in Hc', Hh', Hrev.
  assert (Hlen : length (heap w') = length (heap w)) by by rewrite Hh', length_insert.
  assert (Hoc' : heap w' !! cur = Some oc) by by rewrite Hh', list_lookup_insert_ne.
  assert (Hw'' : w'' = opened extensionUri w').
  { unfold w'', exec. by rewrite createOrShow_absent. }
  split; [exact Hc'|]. split; [exact Hoc'|]. split; [intros p v; by apply relay_drops|].
  rewrite Hw''. unfold opened. cbn [currentPanel heap trace].
  split; [by rewrite Hlen|]. split; [by rewrite length_app, Hlen, Nat.add_1_r|].
  split.
  - rewrite lookup_app_l; [done|]. by eapply lookup_lt_Some.
  - by rewrite revealed_app, Hrev, app_nil_r.
Qed.

Lemma dispose_of_other_instance_clears_singleton_witness :
  let w := exec (PqTestResultViewPanel.createOrShow ["ext"];;
                 PqTestResultViewPanel.revive (hostPanel 9) ["ext"]) initialWorld in
  let w' := exec (PqTestResultViewPanel.onDidDispose 0) w in
  currentPanel w = Some 1
  /\ heap w !! 0 = Some (constructed (hostPanel 0) ["ext"])
  /\ heap w !! 1 = Some (constructed (hostPanel 9) ["ext"])
  /\ currentPanel w' = None
  /\ heap w' !! 1 = Some (constructed (hostPanel 9) ["ext"]).
Proof.
  intros w w'.
  assert (Hcur : currentPanel w = Some 1) by reflexivity.
  assert (Ho : heap w !! 0 = Some (constructed (hostPanel 0) ["ext"])) by reflexivity.
  assert (Hoc : heap w !! 1 = Some (constructed (hostPanel 9) ["ext"])) by reflexivity.
  repeat (split; [assumption|]).
  assert (Hne : 0 <> 1) by lia.
  destruct (dispose_of_other_instance_clears_singleton 0 1 _ _ w ["ext"] Hne Ho Hoc Hcur)
    as (Hnone & Hkept & _).
  split; [exact Hnone | exact Hkept].
Defined.



(** ** Rendering *)

(** X4. The view-state listener does nothing while the surface is hidden.
    When the surface is visible it writes the title and the document the
    constructor wrote for that instance, and changes nothing else: not the
    slots, not the heap, not the singleton. *)
Theorem viewState_rerenders_when_visible (this : Ref) (o : PanelInstance) (w : World) :
  heap w !! this = Some o ->
  let rerender := PqTestResultViewPanel.onDidChangeViewState this true in
  let w' := exec rerender w in
  PqTestResultViewPanel.onDidChangeViewState this false w = (Normal tt, w)
  /\ outcome rerender w = Normal tt
  /\ values w' = values w
  /\ heap w' = heap w
  /\ currentPanel w' = currentPanel w
  /\ nextHandle w' = nextHandle w
  /\ effects w' = effects w ++
       take 2 (effect <$> constructionLog (_panel o) (_extensionUri o) (currentPanel w)).
Proof.
  intros Ho rerender w'.
  split; [reflexivity|].
  unfold w', rerender, outcome, exec, PqTestResultViewPanel.onDidChangeViewState.
  rewrite (update_run this o w Ho). cbn [fst snd].
  split; [reflexivity|]. split; [by destruct w|]. split; [by destruct w|].
  split; [by destruct w|]. split; [by destruct w|].
  unfold effects. cbn [trace setTrace]. by rewrite fmap_app.
Qed.

Lemma viewState_rerenders_when_visible_witness :
  let w := exec (PqTestResultViewPanel.createOrShow ["ext"]) initialWorld in
  let w' := exec (PqTestResultViewPanel.onDidChangeViewState 0 true) w in
  heap w !! 0 = Some (constructed (hostPanel 0) ["ext"])
  /\ heap w' = heap w
  /\ effects w' = effects w ++
       [SetTitle 0 "PQTest result webview";
        SetHtml 0 ["ext"; "webviewDist"; "pq-test-result-view"; "main.js"]].
Proof.
  intros w w'.
  assert (Ho : heap w !! 0 = Some (constructed (hostPanel 0) ["ext"])) by reflexivity.
  split; [exact Ho|].
  destruct (viewState_rerenders_when_visible 0 _ w Ho) as (_ & _ & _ & Hheap & _ & _ & Heff).
  split; [exact Hheap | exact Heff].
Defined.

(** X5. The script the document refers to lies inside the only directory
    the options of the surface allow resources to be loaded from, for every
    location of the extension, and scripts are enabled. *)
Theorem script_inside_resource_root (o : PanelInstance) :
  let options := PqTestResultViewPanel.getWebviewOptions (_extensionUri o) in
  enableScripts options = true
  /\ length (localResourceRoots options) = 1
  /\ exists root, localResourceRoots options = [root]
       /\ PqTestResultViewPanel._getHtmlForWebview o = joinPath root ["main.js"].
Proof.
  cbn. repeat split.
  exists (joinPath (_extensionUri o) PqTestResultViewPanel.viewPaths).
  split; [reflexivity|].
  unfold PqTestResultViewPanel._getHtmlForWebview, joinPath. by rewrite app_assoc.
Qed.

(** ** The envelope on the receiving side *)

(** X6. What the relay posts can be taken apart again by the receiver:
    with a panel open, a call of the relay of slot [p] with [v] posts, to
    the surface of the current panel, one message whose [type] reads
    ["OnOneValueUpdated"] and whose [payload] reads [property = p] and
    [value = v]. *)
Theorem relay_envelope_reads_back (p : string) (v : JValue) (w : World) (cur : Ref)
    (o : PanelInstance) :
  currentPanel w = Some cur ->
  heap w !! cur = Some o ->
  exists message,
    posted (trace (exec (invoke (Relay p) v) w)) =
      posted (trace w) ++ [(handle (_panel o), message)]
    /\ getProperty message "type" = inr (JString "OnOneValueUpdated")
    /\ exists payload,
         getProperty message "payload" = inr payload
         /\ getProperty payload "property" = inr (JString p)
         /\ getProperty payload "value" = inr v.
Proof.
  intros Hcur Ho. exists (envelope p v). split; [|split; [reflexivity|]].
  - unfold exec. rewrite (relay_posts_once p v w cur o) by done.
    cbn [snd trace setTrace]. by rewrite posted_app.
  - eexists. split; [reflexivity|]. by split.
Qed.

Lemma relay_envelope_reads_back_witness :
  let w := exec (PqTestResultViewPanel.createOrShow ["ext"]) initialWorld in
  currentPanel w = Some 0
  /\ heap w !! 0 = Some (constructed (hostPanel 0) ["ext"])
  /\ exists message,
       posted (trace (exec (invoke (Relay "latestPqTestResult") (JBool true)) w)) =
         posted (trace w) ++ [(0, message)]
       /\ getProperty message "type" = inr (JString "OnOneValueUpdated")
       /\ exists payload,
            getProperty message "payload" = inr payload
            /\ getProperty payload "property" = inr (JString "latestPqTestResult")
            /\ getProperty payload "value" = inr (JBool true).
Proof.
  intros w.
  assert (Hcur : currentPanel w = Some 0) by reflexivity.
  assert (Ho : heap w !! 0 = Some (constructed (hostPanel 0) ["ext"])) by reflexivity.
  repeat (split; [assumption|]).
  exact (relay_envelope_reads_back "latestPqTestResult" (JBool true) w 0 _ Hcur Ho).
Defined.

(** ** The panel under the events of the host *)

Lemma settled_setTrace (t : list Logged) (w : World) :
  settled w -> settled (setTrace t w).
Proof. by destruct w. Qed.

Lemma settled_initial : settled initialWorld.
Proof. intros r o Hr. by destruct r. Qed.

Lemma listening_holds (o : PanelInstance) (event : Listener) :
  listening o event = true -> _disposables o <> [].
Proof. unfold listening. by destruct (_disposables o). Qed.

Lemma settled_opened (extensionUri : Uri) (w : World) :
  currentPanel w = None -> settled w -> settled (opened extensionUri w).
Proof.
  intros Hcur Hs r o Hr. unfold opened in *. cbn [heap currentPanel] in *.
  destruct (Nat.eqb_spec r (length (heap w))) as [->|Hne].
  - rewrite lookup_snoc in Hr. injection Hr as <-. by exists (nextHandle w).
  - assert (Hlt : r < length (heap w)).
    { apply lookup_lt_Some in Hr. rewrite length_app in Hr. cbn in Hr. lia. }
    rewrite lookup_app_l in Hr by done.
    specialize (Hs r o Hr). by rewrite Hcur in Hs.
Qed.

(** One event keeps the heap settled, completes normally and leaves the
    broker alone. *)
Lemma dispatch_keeps_settled (extensionUri : Uri) (ev : HostEvent) (w : World) :
  wellFormed w ->
  settled w ->
  outcome (dispatch extensionUri ev) w = Normal tt
  /\ wellFormed (exec (dispatch extensionUri ev) w)
  /\ settled (exec (dispatch extensionUri ev) w)
  /\ values (exec (dispatch extensionUri ev) w) = values w.
Proof.
  intros Hwf Hs. destruct ev as [|r|r visible|p v]; cbn [dispatch].
  - unfold PqTestResultViewPanel.showResultWebView, outcome, exec.
    destruct (currentPanel w) as [cur|] eqn:Hcur.
    + destruct (Hwf cur Hcur) as [o Ho].
      rewrite (createOrShow_active extensionUri w cur o) by done. cbn [fst snd].
      split; [done|]. split; [by apply wellFormed_setTrace|].
      split; [by apply settled_setTrace | by destruct w].
    + rewrite createOrShow_absent by done. cbn [fst snd].
      split; [done|]. split; [|split; [by apply settled_opened | done]].
      eapply wellFormed_current; [reflexivity | apply lookup_snoc].
  - unfold whenListening, outcome, exec.
    destruct (heap w !! r) as [o|] eqn:Ho; [|done].
    destruct (listening o OnDidDispose) eqn:Hl; [|done].
    apply listening_holds in Hl.
    pose proof (Hs r o Ho) as Hro.
    destruct (currentPanel w) as [cur|] eqn:Hcur; [|done].
    destruct (Nat.eqb_spec r cur) as [->|Hne]; [|done].
    destruct Hro as [h Hshape].
    assert (Hclean : settle (reverse (_disposables o)) =
                     {| attempted := reverse (_disposables o); remaining := [];
                        raised := None |}).
    { apply settle_clean, Forall_reverse. rewrite Hshape. cbn. by repeat constructor. }
    destruct (dispose_observed cur o w Ho) as (Hout & Hc' & Hh' & Hv' & _).
    rewrite Hclean in Hout, Hh'. cbn [raised remaining completion] in Hout, Hh'.
    unfold PqTestResultViewPanel.onDidDispose. unfold outcome, exec in *.
    split; [exact Hout|]. split; [by apply wellFormed_absent|]. split; [|exact Hv'].
    intros r' o' Hr'. rewrite Hc'. rewrite Hh' in Hr'.
    destruct (Nat.eq_dec r' cur) as [->|Hne].
    + rewrite list_lookup_insert_eq in Hr' by by eapply lookup_lt_Some.
      by injection Hr' as <-.
    + rewrite list_lookup_insert_ne in Hr' by done.
      specialize (Hs r' o' Hr'). rewrite Hcur in Hs.
      by destruct (Nat.eqb_spec r' cur).
  - unfold whenListening, outcome, exec.
    destruct (heap w !! r) as [o|] eqn:Ho; [|done].
    destruct (listening o OnDidChangeViewState); [|done].
    destruct visible; [|done].
    unfold PqTestResultViewPanel.onDidChangeViewState.
    rewrite (update_run r o w Ho). cbn [fst snd].
    split; [done|]. split; [by apply wellFormed_setTrace|].
    split; [by apply settled_setTrace | by destruct w].
  - unfold outcome, exec. rewrite invoke_run by done. cbn [fst snd].
    split; [done|]. split; [by apply wellFormed_setTrace|].
    split; [by apply settled_setTrace | by destruct w].
Qed.

Lemma live_elem (w : World) (r : Ref) :
  In r (live w) <-> exists o, heap w !! r = Some o /\ holdsRegistrations o = true.
Proof.
  unfold live. rewrite List.filter_In, List.in_seq. split.
  - intros [_ Hr]. cbv beta in Hr. unfold Ref in *.
    destruct (heap w !! r) as [o|]; [|discriminate Hr].
    exists o. split; [reflexivity | exact Hr].
  - intros (o & Ho & Hreg). split.
    + apply lookup_lt_Some in Ho. lia.
    + cbv beta. unfold Ref in *. by rewrite Ho.
Qed.

Lemma live_NoDup (w : World) : List.NoDup (live w).
Proof. unfold live. apply List.NoDup_filter, List.seq_NoDup. Qed.

Lemma live_is_singleton (w : World) (r : Ref) :
  wellFormed w -> settled w -> In r (live w) <-> currentPanel w = Some r.
Proof.
  intros Hwf Hs. rewrite live_elem. split.
  - intros (o & Ho & Hreg). specialize (Hs r o Ho).
    unfold holdsRegistrations in Hreg.
    destruct (currentPanel w) as [cur|].
    + destruct (Nat.eqb_spec r cur) as [->|_]; [done|]. by rewrite Hs in Hreg.
    + by rewrite Hs in Hreg.
  - intros Hcur. destruct (Hwf r Hcur) as [o Ho]. exists o. split; [done|].
    specialize (Hs r o Ho). rewrite Hcur, Nat.eqb_refl in Hs.
    destruct Hs as [h ->]. reflexivity.
Qed.

(** X7. Under show-commands, closures and changes of visibility reported
    for any instance, and value updates handed to the relay, in any order
    and number: every event is handled without an exception, the slots of
    the broker are never touched, and at all times the instances that still
    hold a listener registration are exactly the singleton, so at most one.
    (Revival by the host is not among these events.) *)
Theorem host_events_keep_one_live_panel (extensionUri : Uri) (events : list HostEvent)
    (w0 : World) :
  wellFormed w0 ->
  settled w0 ->
  let run := forEach (dispatch extensionUri) events in
  let w := exec run w0 in
  outcome run w0 = Normal tt
  /\ wellFormed w
  /\ settled w
  /\ values w = values w0
  /\ (forall r, In r (live w) <-> currentPanel w = Some r)
  /\ length (live w) <= 1.
Proof.
  intros Hwf Hs run w.
  assert (Hrun : outcome run w0 = Normal tt /\ wellFormed w /\ settled w
                 /\ values w = values w0).
  { unfold w, run. clear w run. revert w0 Hwf Hs.
    induction events as [|ev events IH]; intros w0 Hwf Hs; [done|].
    destruct (dispatch_keeps_settled extensionUri ev w0 Hwf Hs) as (Ho & Hwf1 & Hs1 & Hv1).
    destruct (IH _ Hwf1 Hs1) as (Ho' & Hwf' & Hs' & Hv').
    unfold outcome, exec in *. cbn [forEach]. rewrite run_bind.
    destruct (dispatch extensionUri ev w0) as [[[]|e] w1]; cbn [fst snd] in *; [|done].
    split; [exact Ho'|]. split; [exact Hwf'|]. split; [exact Hs'|]. congruence. }
  destruct Hrun as (Ho & Hwf' & Hs' & Hv).
  assert (Hlive : forall r, In r (live w) <-> currentPanel w = Some r)
    by (intros r; by apply live_is_singleton).
  repeat (split; [assumption|]).
  pose proof (live_NoDup w) as Hnd.
  destruct (live w) as [|a [|b l]]; cbn; [lia | lia |].
  exfalso.
  assert (Ha : currentPanel w = Some a) by (apply Hlive; by left).
  assert (Hb : currentPanel w = Some b) by (apply Hlive; right; by left).
  rewrite Ha in Hb. injection Hb as <-.
  apply List.NoDup_cons_iff in Hnd as [Hnotin _]. apply Hnotin. by left.
Qed.

Lemma host_events_keep_one_live_panel_witness :
  let events := [ValueUpdated "latestPqTestResult" (JBool true); ShowCommand; ShowCommand;
                 ViewStateChanged 0 true; SurfaceClosed 0; SurfaceClosed 0; ShowCommand] in
  let w := exec (forEach (dispatch ["ext"]) events) initialWorld in
  wellFormed initialWorld
  /\ settled initialWorld
  /\ currentPanel w = Some 1
  /\ live w = [1]
  /\ length (live w) <= 1.
Proof.
  intros events w.
  split; [exact wellFormed_initial|]. split; [exact settled_initial|].
  split; [reflexivity|]. split; [reflexivity|].
  destruct (host_events_keep_one_live_panel ["ext"] events initialWorld
              wellFormed_initial settled_initial) as (_ & _ & _ & _ & _ & Hle).
  exact Hle.
Defined.

(** X9. Show, close, show again.  From a world without a panel: the first
    show-command opens a surface, its closure releases the three
    registrations of that panel, in the reverse of the order they were
    made, and the second show-command does not reveal the closed surface
    but asks the host for a new one and wraps it in a second instance,
    which becomes the singleton. *)
Theorem show_close_show_opens_new_surface (extensionUri : Uri) (w : World) :
  currentPanel w = None ->
  let first := length (heap w) in
  let surface := hostPanel (nextHandle w) in
  let scenario := PqTestResultViewPanel.createOrShow extensionUri;;
                  PqTestResultViewPanel.onDidDispose first;;
                  PqTestResultViewPanel.createOrShow extensionUri in
  let w' := exec scenario w in
  outcome scenario w = Normal tt
  /\ currentPanel w' = Some (S first)
  /\ heap w' = heap w ++ [setDisposables [] (constructed surface extensionUri);
                          constructed (hostPanel (S (nextHandle w))) extensionUri]
  /\ created (trace w') = created (trace w) ++ [nextHandle w; S (nextHandle w)]
  /\ released (trace w') = released (trace w) ++
       [registration surface OnDidReceiveMessage;
        registration surface OnDidChangeViewState;
        registration surface OnDidDispose]
  /\ revealed (trace w') = revealed (trace w).
Proof.
  intros Hcur first surface scenario w'.
  set (w1 := opened extensionUri w).
  assert (Ho : heap w1 !! first = Some (constructed surface extensionUri))
    by apply lookup_snoc.
  destruct (dispose_observed first _ w1 Ho)
    as (Hout & Hc2 & Hh2 & _ & Hn2 & Hrel2 & Hrev2 & _ & Hcr2).
  set (w2 := exec (PqTestResultViewPanel.dispose first) w1) in *.
  cbn [constructed _disposables reverse settle hostPanel registration disposeThrows
       surface attempted remaining raised completion] in Hout, Hh2, Hrel2.
  assert (Hrun : scenario w = (Normal tt, opened extensionUri w2)).
  { unfold scenario. rewrite run_bind, createOrShow_absent by done. fold w1.
    rewrite run_bind. unfold PqTestResultViewPanel.onDidDispose.
    unfold outcome, w2, exec in *.
    destruct (PqTestResultViewPanel.dispose first w1) as [c w2'] eqn:E.
    cbn [fst snd] in *. subst c. by apply createOrShow_absent. }
  assert (Hheap2 : heap w2 = heap w ++ [setDisposables [] (constructed surface extensionUri)]).
  { rewrite Hh2. unfold w1, opened. cbn [heap]. apply insert_snoc. }
  unfold w', outcome, exec. rewrite Hrun. cbn [fst snd].
  unfold opened at 1 2 3 4 5. cbn [currentPanel heap trace].
  rewrite created_app, released_app, revealed_app, Hcr2, Hrel2, Hrev2, Hn2, Hheap2.
  unfold w1, opened. cbn [trace nextHandle].
  rewrite created_app, released_app, revealed_app.
  split; [done|]. split; [by rewrite length_app, Nat.add_1_r|].
  split; [by rewrite <- app_assoc|].
  split; [by rewrite <- !app_assoc|].
  split; [by rewrite !app_nil_r|].
  by rewrite !app_nil_r.
Qed.

Lemma show_close_show_opens_new_surface_witness :
  let scenario := PqTestResultViewPanel.createOrShow ["ext"];;
                  PqTestResultViewPanel.onDidDispose (length (heap initialWorld));;
                  PqTestResultViewPanel.createOrShow ["ext"] in
  currentPanel initialWorld = None
  /\ currentPanel (exec scenario initialWorld) = Some (S (length (heap initialWorld)))
  /\ created (trace (exec scenario initialWorld)) =
       created (trace initialWorld)
       ++ [nextHandle initialWorld; S (nextHandle initialWorld)].
Proof.
  intros scenario. split; [reflexivity|].
  destruct (show_close_show_opens_new_surface ["ext"] initialWorld eq_refl)
    as (_ & Hcur & _ & Hcreated & _).
  split; [exact Hcur | exact Hcreated].
Defined.

(** * The constants of the extension *)

Lemma append_cancel_l (s a b : string) : s +:+ a = s +:+ b -> a = b.
Proof.
  induction s as [|c s IH]; cbn; [done|]. intros [= H]. by apply IH.
Qed.

(** X8. The path of the test runner inside a tools package: for every
    version it has the three segments [<package>.<version>], ["tools"],
    ["PQTest.exe"]; two versions never share a path; and the constant
    [PqTestSubPath] is the path of the suggested version. *)
Theorem buildPqTestSubPath_separates_versions (v1 v2 : string) :
  ExtensionConstants.buildPqTestSubPath v1 = ExtensionConstants.buildPqTestSubPath v2 ->
  v1 = v2
  /\ length (ExtensionConstants.buildPqTestSubPath v1) = 3
  /\ drop 1 (ExtensionConstants.buildPqTestSubPath v1) = ["tools"; "PQTest.exe"]
  /\ ExtensionConstants.buildPqTestSubPath ExtensionConstants.SuggestedPqTestNugetVersion =
       ExtensionConstants.PqTestSubPath.
Proof.
  intros H. split; [|by repeat split].
  unfold ExtensionConstants.buildPqTestSubPath in H. injection H as H.
  by apply append_cancel_l in H.
Qed.

Lemma buildPqTestSubPath_separates_versions_witness :
  ExtensionConstants.buildPqTestSubPath "2.109.5" =
    ["Microsoft.PowerQuery.SdkTools.2.109.5"; "tools"; "PQTest.exe"]
  /\ length (ExtensionConstants.buildPqTestSubPath "2.109.5") = 3.
Proof.
  split; [reflexivity|].
  destruct (buildPqTestSubPath_separates_versions "2.109.5" "2.109.5" eq_refl)
    as (_ & Hlen & _).
  exact Hlen.
Defined.
